(** * SimpleQABench: the benchflow adapter of the SimpleQA benchmark

    A shallow embedding of [benchflow_interface.py].  The adapter declares the
    arguments of a run, names the image and the two directories, and turns
    the files a run leaves behind into a [BenchmarkResult].

    Python objects are embedded as the inductive type [value]; the file
    system and the table of open file handles form the [world] that the
    adapter's operations run in; exceptions are explicit results. *)

From Stdlib Require Import String Ascii List ZArith Bool Arith Lia.
From Stdlib Require Import DecimalString.
Import ListNotations.
Open Scope string_scope.

(** ** Python objects *)

(** The objects [json.load] builds, which are also the objects the adapter
    stores in its dictionaries.  A dictionary keeps its items in insertion
    order.  A float is carried by its [repr], the shortest decimal text that
    reads back as the same float: the adapter copies and prints floats and
    never computes with them.  A character stands for one code point below
    256. *)
#[local] Set Warnings "-register-all".
Inductive value : Type :=
| PyNone
| PyBool (b : bool)
| PyInt (z : Z)
| PyFloat (repr : string)
| PyStr (s : string)
| PyList (items : list value)
| PyDict (items : list (string * value)).

Definition dict : Type := list (string * value).

(** [d.get(k)]: the value stored under [k], if any. *)
Fixpoint dict_get (k : string) (d : dict) : option value :=
  match d with
  | [] => None
  | (k', v) :: rest => if String.eqb k k' then Some v else dict_get k rest
  end.

Definition keys (d : dict) : list string := map fst d.

(** ** Strings *)

(** [s.endswith(suffix)] *)
Definition endswith (s suffix : string) : bool :=
  let n := String.length s in
  let m := String.length suffix in
  (m <=? n)%nat && String.eqb (substring (n - m) m s) suffix.

Definition startswith (s pre : string) : bool := String.prefix pre s.

(** [sep.join(parts)] *)
Fixpoint join (sep : string) (parts : list string) : string :=
  match parts with
  | [] => ""
  | [p] => p
  | p :: rest => p ++ sep ++ join sep rest
  end.

Fixpoint contains_char (c : ascii) (s : string) : bool :=
  match s with
  | EmptyString => false
  | String c' rest => Ascii.eqb c c' || contains_char c rest
  end.

Definition hex_digit (n : nat) : ascii :=
  nth n (list_ascii_of_string "0123456789abcdef") "0"%char.

(** [str.isprintable] on one code point below 256. *)
Definition is_printable (c : ascii) : bool :=
  let n := nat_of_ascii c in
  (((32 <=? n) && (n <? 127)) || ((161 <=? n) && negb (n =? 173)))%nat.

Definition repr_char (quote c : ascii) : string :=
  let n := nat_of_ascii c in
  if Ascii.eqb c quote || Ascii.eqb c "\"%char then String "\"%char (String c "")
  else if (n =? 9)%nat then "\t"
  else if (n =? 10)%nat then "\n"
  else if (n =? 13)%nat then "\r"
  else if is_printable c then String c ""
  else String "\"%char (String "x"%char
         (String (hex_digit (n / 16)) (String (hex_digit (n mod 16)) ""))).

Fixpoint repr_chars (quote : ascii) (s : string) : string :=
  match s with
  | EmptyString => ""
  | String c rest => repr_char quote c ++ repr_chars quote rest
  end.

Definition dquote : ascii := ascii_of_nat 34.
Definition squote : ascii := "'"%char.

(** [repr(s)] of a string: single quotes, unless the string holds a single
    quote and no double quote. *)
Definition repr_str (s : string) : string :=
  let quote :=
    if contains_char squote s && negb (contains_char dquote s)
    then dquote else squote in
  String quote (repr_chars quote s ++ String quote "").

Definition str_of_Z (z : Z) : string := NilEmpty.string_of_int (Z.to_int z).

(** [repr(v)] *)
Fixpoint py_repr (v : value) : string :=
  match v with
  | PyNone => "None"
  | PyBool true => "True"
  | PyBool false => "False"
  | PyInt z => str_of_Z z
  | PyFloat r => r
  | PyStr s => repr_str s
  | PyList l => "[" ++ join ", " (map py_repr l) ++ "]"
  | PyDict d =>
      "{" ++ join ", "
               (map (fun kv : string * value =>
                       let (k, x) := kv in repr_str k ++ ": " ++ py_repr x) d)
          ++ "}"
  end.

(** [str(v)], which is what an f-string field without a format prints. *)
Definition py_str (v : value) : string :=
  match v with
  | PyStr s => s
  | _ => py_repr v
  end.

(** [os.path.join(a, b)] of [posixpath]. *)
Definition os_path_join (a b : string) : string :=
  if startswith b "/" then b
  else if String.eqb a "" || endswith a "/" then a ++ b
  else a ++ "/" ++ b.

(** ** Exceptions *)

(** An instance of [Exception]: its class and [str(e)]. *)
Record exn : Type := Exn { exn_class : string; exn_str : string }.

Definition KeyError (key : string) : exn := Exn "KeyError" (repr_str key).
Definition ValueError (msg : string) : exn := Exn "ValueError" msg.

(** ** The Result Record *)

(** Modelled from the spec: the Result Record, [BenchmarkResult] of
    [benchflow.schemas], with the five fields the adapter passes by
    keyword. *)
Record BenchmarkResult : Type := {
  task_id : string;
  is_resolved : bool;
  log : dict;
  metrics : dict;
  other : dict
}.

(** A numeric or count value. *)
Definition is_number (v : value) : bool :=
  match v with
  | PyInt _ | PyFloat _ => true
  | _ => false
  end.

Definition all_numbers (d : dict) : bool :=
  forallb (fun kv : string * value => is_number (snd kv)) d.

(** ** The interpreter, the [json] module and the constructor of the
    Result Record

    What the adapter takes from outside the repository: the decoder of
    [json]; the exceptions CPython raises when a loaded object that is
    not a dictionary is subscripted with a string, or when an object that
    cannot be sliced is sliced (their texts differ between CPython
    versions); and the check [BenchmarkResult(...)] makes of its fields.

    Modelled from the spec: the constructor of the Result Record is not
    part of the repository.  The spec types its fields: the adapter always
    passes a string as task identifier, a boolean, a log of strings and a
    free-form [other], so only the metrics, which are to be numeric or
    count values, can be refused.  [metrics_error d] is the exception the
    constructor raises for the metrics [d], if it raises; metrics that are
    all numbers are accepted, and an accepted record holds the fields it
    was given. *)
Class Runtime : Type := {
  json_loads : string -> exn + value;
  subscript_error : value -> exn;
  slice_error : value -> exn;
  metrics_error : dict -> option exn;
  metrics_error_numbers : forall d, all_numbers d = true -> metrics_error d = None
}.

(** ** The world: files and open handles *)

(** The file system as the adapter can observe it.  [fs_open p] is the
    exception [open(p, 'r')] raises, if it raises; [fs_read p] is what
    reading the opened file to its end gives. *)
Record filesystem : Type := {
  fs_listdir : string -> exn + list string;
  fs_exists : string -> bool;
  fs_open : string -> option exn;
  fs_read : string -> exn + string
}.

Record world : Type := World {
  files : filesystem;
  handles : list string
}.

(** A computation reads and updates the world, and returns or raises. *)
Definition M (A : Type) : Type := world -> (exn + A) * world.

Definition ret {A} (a : A) : M A := fun w => (inr a, w).
Definition raise {A} (e : exn) : M A := fun w => (inl e, w).
Definition bind {A B} (m : M A) (k : A -> M B) : M B :=
  fun w =>
    match m w with
    | (inl e, w') => (inl e, w')
    | (inr a, w') => k a w'
    end.
Definition lift {A} (r : exn + A) : M A := fun w => (r, w).

(** [try: body  except Exception as e: handler(e)] *)
Definition try_except {A} (body : M A) (handler : exn -> M A) : M A :=
  fun w =>
    match body w with
    | (inl e, w') => handler e w'
    | (inr a, w') => (inr a, w')
    end.

Declare Scope py_scope.
Delimit Scope py_scope with py.
Notation "x <- m ;; k" := (bind m (fun x => k))
  (at level 100, m at next level, right associativity) : py_scope.
Open Scope py_scope.

Fixpoint remove_first (h : string) (hs : list string) : list string :=
  match hs with
  | [] => []
  | h' :: rest => if String.eqb h h' then rest else h' :: remove_first h rest
  end.

Definition is_open (h : string) (w : world) : bool :=
  existsb (String.eqb h) (handles w).

Definition os_listdir (path : string) : M (list string) :=
  fun w => (fs_listdir (files w) path, w).

Definition os_path_exists (path : string) : M bool :=
  fun w => (inr (fs_exists (files w) path), w).

(** [open(path, 'r')]: the handle is named by its path. *)
Definition py_open (path : string) : M string :=
  fun w =>
    match fs_open (files w) path with
    | Some e => (inl e, w)
    | None => (inr path, World (files w) (path :: handles w))
    end.

Definition py_close (h : string) : M unit :=
  fun w => (inr tt, World (files w) (remove_first h (handles w))).

(** [f.read()] *)
Definition f_read (h : string) : M string :=
  fun w =>
    if is_open h w then (fs_read (files w) h, w)
    else (inl (ValueError "I/O operation on closed file."), w).

(** [with open(path, 'r') as f: body(f)]: the handle is closed when the
    body returns and when it raises. *)
Definition with_open {A} (path : string) (body : string -> M A) : M A :=
  f <- py_open path ;;
  fun w =>
    let (r, w1) := body f w in
    let (_, w2) := py_close f w1 in
    (r, w2).

(** [json.load(f)] *)
Definition json_load `{Runtime} (f : string) : M value :=
  text <- f_read f ;;
  lift (json_loads text).

(** [v[key]] for a string [key]. *)
Definition getitem `{Runtime} (v : value) (key : string) : M value :=
  match v with
  | PyDict d =>
      match dict_get key d with
      | Some x => ret x
      | None => raise (KeyError key)
      end
  | _ => raise (subscript_error v)
  end.

(** [v[:n]] *)
Definition slice_to `{Runtime} (n : nat) (v : value) : M value :=
  match v with
  | PyList l => ret (PyList (firstn n l))
  | PyStr s => ret (PyStr (substring 0 n s))
  | _ => raise (slice_error v)
  end.

(** [BenchmarkResult(task_id=..., is_resolved=..., log=..., metrics=...,
    other=...)] *)
Definition new_result `{Runtime} (r : BenchmarkResult) : M BenchmarkResult :=
  match metrics_error (metrics r) with
  | Some e => raise e
  | None => ret r
  end.

(** ** The adapter *)

(** Modelled from the spec: the Configuration Descriptor, the type of the
    objects [BenchArgs] of [benchflow.schemas] builds: the required keys
    and the defaults of the optional keys. *)
Record BenchArgs : Type := {
  required_args : list string;
  optional_args : list (string * string)
}.

(** The attributes of [self] the harness sets before it asks for a
    result. *)
Record SimpleQABench : Type := {
  results_dir : string;
  log_files_dir : string
}.

(** The constructor [BenchArgs(...)] of [benchflow.schemas], which is not
    part of the repository: what it makes of the dictionary it is given. *)
Class ArgsSchema : Type := {
  bench_args : value -> exn + BenchArgs
}.

(** The dictionary [get_args] passes to [BenchArgs]. *)
Definition get_args_arguments : value :=
  PyDict
    [ ("required_args", PyList [PyStr "OPENAI_API_KEY"]);
      ("optional_args",
       PyDict
         [ ("MODEL_NAME", PyStr "gpt-4o-mini");
           ("TEMPERATURE", PyStr "0.5");
           ("MAX_TOKENS", PyStr "2048");
           ("LIMIT", PyStr "0");
           ("BATCH_SIZE", PyStr "10");
           ("GRADER_MODEL", PyStr "gpt-4o");
           ("GRADER_TEMPERATURE", PyStr "0.5") ]) ].

Definition get_args `{ArgsSchema}
    (self : SimpleQABench) (task_id : string) : exn + BenchArgs :=
  bench_args get_args_arguments.

Definition get_image_name (self : SimpleQABench) : string :=
  "131268/benchflow-simpleqa:latest".

Definition get_results_dir_in_container (self : SimpleQABench) : string :=
  "/app/results".

Definition get_log_files_dir_in_container (self : SimpleQABench) : string :=
  "/app/logs".

(** The result of both failure branches; they differ in the text only. *)
Definition failure (task_id error : string) : BenchmarkResult :=
  {| task_id := task_id;
     is_resolved := false;
     log := [("message", PyStr "")];
     metrics := [("accuracy", PyFloat "0.0")];
     other := [("error", PyStr error)] |}.

(** The body of the [try] statement of [get_result]. *)
Definition parse_results `{Runtime}
    (self : SimpleQABench) (task_id result_file : string) : M BenchmarkResult :=
  results <- with_open result_file json_load ;;
  let log_file := os_path_join (log_files_dir self) "simpleqa.log" in
  present <- os_path_exists log_file ;;
  log_content <- (if present then with_open log_file f_read else ret "") ;;
  metrics <- getitem results "metrics" ;;
  accuracy <- getitem metrics "accuracy" ;;
  correct <- getitem metrics "correct" ;;
  incorrect <- getitem metrics "incorrect" ;;
  not_attempted <- getitem metrics "not_attempted" ;;
  total <- getitem metrics "total" ;;
  correct_given_attempted <- getitem metrics "correct_given_attempted" ;;
  f_score <- getitem metrics "f_score" ;;
  evaluated <- getitem metrics "total" ;;
  detailed <- getitem results "results" ;;
  first_ten <- slice_to 10 detailed ;;
  new_result
      {| task_id := task_id;
         is_resolved := true;
         log := [("content", PyStr log_content)];
         metrics :=
           [ ("accuracy", accuracy);
             ("correct", correct);
             ("incorrect", incorrect);
             ("not_attempted", not_attempted);
             ("total", total);
             ("correct_given_attempted", correct_given_attempted);
             ("f_score", f_score) ];
         other :=
           [ ("success", PyStr ("Evaluated " ++ py_str evaluated ++ " examples"));
             ("detailed_results", first_ten) ] |}.

Definition get_result `{Runtime}
    (self : SimpleQABench) (task_id : string) : M BenchmarkResult :=
  entries <- os_listdir (results_dir self) ;;
  let result_files := filter (fun f => endswith f "_result.json") entries in
  match result_files with
  | [] => new_result (failure task_id "No results found")
  | first :: _ =>
      let result_file := os_path_join (results_dir self) first in
      try_except
        (parse_results self task_id result_file)
        (fun e =>
           new_result (failure task_id ("Error parsing results: " ++ exn_str e)))
  end.

Definition get_all_tasks (self : SimpleQABench) (split : string) : dict :=
  [ ("task_ids", PyList [PyStr "default"]);
    ("error_message", PyNone) ].

(** ** A runtime to run the adapter on examples

    The theorems below hold for every [Runtime].  To evaluate the adapter
    on concrete files, [cpython] decodes a subset of JSON: objects, arrays,
    strings with the one-letter escapes, integers, [true], [false], [null],
    and decimal fractions of at most 15 digits, whose text with the trailing
    zeros removed is their [repr].  Any other text is rejected, with one of
    two fixed messages in place of the decoder's message and position.  The
    exceptions of subscripting and slicing are those of CPython 3.12.  The
    constructor of the Result Record accepts the metrics that are all
    numbers and refuses the others, with a fixed message. *)

Definition TypeError (msg : string) : exn := Exn "TypeError" msg.
Definition JSONDecodeError (msg : string) : exn := Exn "JSONDecodeError" msg.

Definition is_ws (c : ascii) : bool :=
  let n := nat_of_ascii c in ((n =? 32) || (n =? 9) || (n =? 10) || (n =? 13))%nat.

Definition is_digit (c : ascii) : bool :=
  let n := nat_of_ascii c in ((48 <=? n) && (n <=? 57))%nat.

Fixpoint skip_ws (s : string) : string :=
  match s with
  | String c rest => if is_ws c then skip_ws rest else s
  | EmptyString => s
  end.

Fixpoint take_digits (s : string) : string * string :=
  match s with
  | String c rest =>
      if is_digit c
      then let (ds, r) := take_digits rest in (String c ds, r)
      else ("", s)
  | EmptyString => ("", s)
  end.

(** [d[k] = v]: an existing key keeps its place. *)
Fixpoint dict_set (k : string) (v : value) (d : dict) : dict :=
  match d with
  | [] => [(k, v)]
  | (k', v') :: rest =>
      if String.eqb k k' then (k, v) :: rest else (k', v') :: dict_set k v rest
  end.

Fixpoint strip_zeros_rev (rev_digits : list ascii) : list ascii :=
  match rev_digits with
  | c :: (_ :: _) as rest => if Ascii.eqb c "0" then strip_zeros_rev rest else rev_digits
  | _ => rev_digits
  end.

Definition strip_trailing_zeros (ds : string) : string :=
  string_of_list_ascii (rev (strip_zeros_rev (rev (list_ascii_of_string ds)))).

Fixpoint Z_of_digits (acc : Z) (ds : string) : Z :=
  match ds with
  | String c rest => Z_of_digits (10 * acc + Z.of_nat (nat_of_ascii c - 48)) rest
  | EmptyString => acc
  end.

Definition decode_number (s : string) : option (value * string) :=
  let (sign, s1) :=
    match s with
    | String c rest => if Ascii.eqb c "-" then ("-", rest) else ("", s)
    | EmptyString => ("", s)
    end in
  let (int_part, s2) := take_digits s1 in
  let int_value :=
    if String.eqb sign "-" then (- Z_of_digits 0 int_part)%Z
    else Z_of_digits 0 int_part in
  if String.eqb int_part "" then None
  else if startswith int_part "0" && negb (String.eqb int_part "0") then None
  else
    match s2 with
    | String c rest =>
        if Ascii.eqb c "." then
          let (frac, s3) := take_digits rest in
          let frac' := strip_trailing_zeros frac in
          let exponent :=
            match s3 with
            | String c' _ => Ascii.eqb c' "e" || Ascii.eqb c' "E"
            | EmptyString => false
            end in
          if String.eqb frac "" || exponent then None
          else if (15 <? String.length int_part + String.length frac')%nat then None
          else if String.eqb int_part "0" && startswith frac' "0000" then None
          else Some (PyFloat (sign ++ int_part ++ "." ++ frac'), s3)
        else if Ascii.eqb c "e" || Ascii.eqb c "E" then None
        else Some (PyInt int_value, s2)
    | EmptyString =>
        Some (PyInt int_value, s2)
    end.

Definition unescape (c : ascii) : option ascii :=
  let n := nat_of_ascii c in
  if ((n =? 34) || (n =? 92) || (n =? 47))%nat then Some c
  else if Ascii.eqb c "n" then Some (ascii_of_nat 10)
  else if Ascii.eqb c "t" then Some (ascii_of_nat 9)
  else if Ascii.eqb c "r" then Some (ascii_of_nat 13)
  else if Ascii.eqb c "b" then Some (ascii_of_nat 8)
  else if Ascii.eqb c "f" then Some (ascii_of_nat 12)
  else None.

(** The text of a string literal after its opening quote. *)
Fixpoint decode_string (s : string) : option (string * string) :=
  match s with
  | EmptyString => None
  | String c rest =>
      if Ascii.eqb c dquote then Some ("", rest)
      else if (nat_of_ascii c <? 32)%nat then None
      else if Ascii.eqb c "\" then
        match rest with
        | String e rest' =>
            match unescape e, decode_string rest' with
            | Some c', Some (str, r) => Some (String c' str, r)
            | _, _ => None
            end
        | EmptyString => None
        end
      else
        match decode_string rest with
        | Some (str, r) => Some (String c str, r)
        | None => None
        end
  end.

Definition strip_prefix (pre s : string) : option string :=
  if startswith s pre
  then Some (substring (String.length pre) (String.length s - String.length pre) s)
  else None.

Fixpoint decode_value (fuel : nat) (s : string) : option (value * string) :=
  match fuel with
  | O => None
  | S fuel' =>
      match skip_ws s with
      | EmptyString => None
      | String c rest as s' =>
          if Ascii.eqb c "[" then
            match skip_ws rest with
            | String c' rest' =>
                if Ascii.eqb c' "]" then Some (PyList [], rest')
                else
                  match decode_items fuel' [] rest with
                  | Some (l, r) => Some (PyList l, r)
                  | None => None
                  end
            | EmptyString => None
            end
          else if Ascii.eqb c "{" then
            match skip_ws rest with
            | String c' rest' =>
                if Ascii.eqb c' "}" then Some (PyDict [], rest')
                else
                  match decode_members fuel' [] rest with
                  | Some (d, r) => Some (PyDict d, r)
                  | None => None
                  end
            | EmptyString => None
            end
          else if Ascii.eqb c dquote then
            match decode_string rest with
            | Some (str, r) => Some (PyStr str, r)
            | None => None
            end
          else
            match strip_prefix "null" s', strip_prefix "true" s', strip_prefix "false" s' with
            | Some r, _, _ => Some (PyNone, r)
            | _, Some r, _ => Some (PyBool true, r)
            | _, _, Some r => Some (PyBool false, r)
            | _, _, _ => decode_number s'
            end
      end
  end
with decode_items (fuel : nat) (acc : list value) (s : string)
  : option (list value * string) :=
  match fuel with
  | O => None
  | S fuel' =>
      match decode_value fuel' s with
      | Some (v, r) =>
          match skip_ws r with
          | String c rest =>
              if Ascii.eqb c "," then decode_items fuel' (acc ++ [v])%list rest
              else if Ascii.eqb c "]" then Some ((acc ++ [v])%list, rest)
              else None
          | EmptyString => None
          end
      | None => None
      end
  end
with decode_members (fuel : nat) (acc : dict) (s : string)
  : option (dict * string) :=
  match fuel with
  | O => None
  | S fuel' =>
      match skip_ws s with
      | String q rest =>
          if Ascii.eqb q dquote then
            match decode_string rest with
            | Some (k, r1) =>
                match skip_ws r1 with
                | String c r2 =>
                    if Ascii.eqb c ":" then
                      match decode_value fuel' r2 with
                      | Some (v, r3) =>
                          match skip_ws r3 with
                          | String c' r4 =>
                              if Ascii.eqb c' "," then decode_members fuel' (dict_set k v acc) r4
                              else if Ascii.eqb c' "}" then Some (dict_set k v acc, r4)
                              else None
                          | EmptyString => None
                          end
                      | None => None
                      end
                    else None
                | EmptyString => None
                end
            | None => None
            end
          else None
      | EmptyString => None
      end
  end.

Definition decode (s : string) : exn + value :=
  match decode_value (S (String.length s)) s with
  | Some (v, r) =>
      if String.eqb (skip_ws r) "" then inr v
      else inl (JSONDecodeError "Extra data")
  | None => inl (JSONDecodeError "Expecting value")
  end.

Definition type_name (v : value) : string :=
  match v with
  | PyNone => "NoneType"
  | PyBool _ => "bool"
  | PyInt _ => "int"
  | PyFloat _ => "float"
  | PyStr _ => "str"
  | PyList _ => "list"
  | PyDict _ => "dict"
  end.

Definition not_subscriptable (v : value) : exn :=
  TypeError ("'" ++ type_name v ++ "' object is not subscriptable").

Definition refuse_non_numbers (d : dict) : option exn :=
  if all_numbers d then None
  else Some (Exn "ValidationError" "validation error for BenchmarkResult").

#[export] Instance cpython : Runtime.
Proof.
  refine {| json_loads := decode;
            subscript_error v :=
              match v with
              | PyList _ => TypeError "list indices must be integers or slices, not str"
              | PyStr _ => TypeError "string indices must be integers, not 'str'"
              | _ => not_subscriptable v
              end;
            slice_error v :=
              match v with
              | PyDict _ => Exn "KeyError" "slice(None, 10, None)"
              | _ => not_subscriptable v
              end;
            metrics_error := refuse_non_numbers |}.
  intros d Hd. unfold refuse_non_numbers. rewrite Hd. reflexivity.
Defined.

(** The texts of the examples are written with ['] where the file has a
    double quote. *)
Fixpoint dq (s : string) : string :=
  match s with
  | String c rest => String (if Ascii.eqb c squote then dquote else c) (dq rest)
  | EmptyString => s
  end.

(** A file system of directories and readable text files. *)
Fixpoint assoc {A} (k : string) (l : list (string * A)) : option A :=
  match l with
  | [] => None
  | (k', a) :: rest => if String.eqb k k' then Some a else assoc k rest
  end.

Definition is_some {A} (o : option A) : bool :=
  match o with Some _ => true | None => false end.

Definition os_error (class : string) (errno : string) (path : string) : exn :=
  Exn class (errno ++ ": " ++ repr_str path).

Definition FileNotFoundError : string -> exn :=
  os_error "FileNotFoundError" "[Errno 2] No such file or directory".
Definition IsADirectoryError : string -> exn :=
  os_error "IsADirectoryError" "[Errno 21] Is a directory".
Definition NotADirectoryError : string -> exn :=
  os_error "NotADirectoryError" "[Errno 20] Not a directory".

Definition tree (dirs : list (string * list string))
    (texts : list (string * string)) : filesystem :=
  {| fs_listdir p :=
       match assoc p dirs with
       | Some names => inr names
       | None => inl (if is_some (assoc p texts) then NotADirectoryError p
                      else FileNotFoundError p)
       end;
     fs_exists p := is_some (assoc p dirs) || is_some (assoc p texts);
     fs_open p :=
       if is_some (assoc p texts) then None
       else if is_some (assoc p dirs) then Some (IsADirectoryError p)
       else Some (FileNotFoundError p);
     fs_read p :=
       match assoc p texts with
       | Some text => inr text
       | None => inl (IsADirectoryError p)
       end |}.

Definition bench : SimpleQABench :=
  {| results_dir := "/run/results"; log_files_dir := "/run/logs" |}.

Definition good_text : string :=
  dq "{'metrics': {'accuracy':0.8,'correct':8,'incorrect':1,'not_attempted':1,'total':10,'correct_given_attempted':0.888,'f_score':0.84}, 'results': [1,2,3]}".

Definition fifteen_text : string :=
  dq "{'metrics': {'accuracy':0.8,'correct':8,'incorrect':1,'not_attempted':1,'total':10,'correct_given_attempted':0.888,'f_score':0.84,'extra':7}, 'results': [1,2,3,4,5,6,7,8,9,10,11,12,13,14,15]}".

(** One result file and a log. *)
Definition w_good : world :=
  World (tree [("/run/results", ["notes.txt"; "abc_result.json"]); ("/run/logs", ["simpleqa.log"])]
              [("/run/results/abc_result.json", good_text);
               ("/run/results/notes.txt", "n/a");
               ("/run/logs/simpleqa.log", "hello")]) [].

(** One result file, no log. *)
Definition w_nolog : world :=
  World (tree [("/run/results", ["abc_result.json"]); ("/run/logs", [])]
              [("/run/results/abc_result.json", fifteen_text)]) [].

(** One result file; [simpleqa.log] is a directory. *)
Definition w_logdir : world :=
  World (tree [("/run/results", ["abc_result.json"]); ("/run/logs", ["simpleqa.log"]);
               ("/run/logs/simpleqa.log", [])]
              [("/run/results/abc_result.json", good_text)]) [].

(** The results directory holds no result file. *)
Definition w_empty : world :=
  World (tree [("/run/results", ["notes.txt"]); ("/run/logs", [])]
              [("/run/results/notes.txt", "n/a")]) [].

(** The results directory does not exist. *)
Definition w_absent : world := World (tree [("/run/logs", [])] []) [].

(** Result files that do not decode, or lack a key. *)
Definition w_text (text : string) : world :=
  World (tree [("/run/results", ["abc_result.json"]); ("/run/logs", [])]
              [("/run/results/abc_result.json", text)]) [].

(** What the example files decode to, and the records they give. *)
Definition result_path : string := "/run/results/abc_result.json".

Definition good_metrics : value :=
  PyDict [ ("accuracy", PyFloat "0.8"); ("correct", PyInt 8);
           ("incorrect", PyInt 1); ("not_attempted", PyInt 1);
           ("total", PyInt 10); ("correct_given_attempted", PyFloat "0.888");
           ("f_score", PyFloat "0.84") ].

Definition good_top : value :=
  PyDict [ ("metrics", good_metrics);
           ("results", PyList [PyInt 1; PyInt 2; PyInt 3]) ].

Definition fifteen_metrics : value :=
  PyDict [ ("accuracy", PyFloat "0.8"); ("correct", PyInt 8);
           ("incorrect", PyInt 1); ("not_attempted", PyInt 1);
           ("total", PyInt 10); ("correct_given_attempted", PyFloat "0.888");
           ("f_score", PyFloat "0.84"); ("extra", PyInt 7) ].

Definition fifteen_results : list value :=
  map PyInt [1; 2; 3; 4; 5; 6; 7; 8; 9; 10; 11; 12; 13; 14; 15]%Z.

Definition fifteen_top : value :=
  PyDict [ ("metrics", fifteen_metrics); ("results", PyList fifteen_results) ].

Definition good_result : BenchmarkResult :=
  {| task_id := "default";
     is_resolved := true;
     log := [("content", PyStr "hello")];
     metrics :=
       [ ("accuracy", PyFloat "0.8"); ("correct", PyInt 8);
         ("incorrect", PyInt 1); ("not_attempted", PyInt 1);
         ("total", PyInt 10); ("correct_given_attempted", PyFloat "0.888");
         ("f_score", PyFloat "0.84") ];
     other :=
       [ ("success", PyStr "Evaluated 10 examples");
         ("detailed_results", PyList [PyInt 1; PyInt 2; PyInt 3]) ] |}.

Definition fifteen_result : BenchmarkResult :=
  {| task_id := "default";
     is_resolved := true;
     log := [("content", PyStr "")];
     metrics :=
       [ ("accuracy", PyFloat "0.8"); ("correct", PyInt 8);
         ("incorrect", PyInt 1); ("not_attempted", PyInt 1);
         ("total", PyInt 10); ("correct_given_attempted", PyFloat "0.888");
         ("f_score", PyFloat "0.84") ];
     other :=
       [ ("success", PyStr "Evaluated 10 examples");
         ("detailed_results", PyList (firstn 10 fifteen_results)) ] |}.

(** A result file cut short, and one that is an empty object. *)
Definition truncated_text : string := dq "{'metrics': {'accuracy': 1".
Definition empty_object_text : string := "{}".

(** Further example files: a second result file later in the listing; a
    ["metrics"] without [incorrect]; an array; ["results"] as a string and
    as a number. *)
Definition w_many : world :=
  World (tree [("/run/results", ["readme.md"; "abc_result.json"; "zzz_result.json"]);
               ("/run/logs", ["simpleqa.log"; "other.log"])]
              [("/run/results/abc_result.json", good_text);
               ("/run/results/zzz_result.json", "not json");
               ("/run/results/readme.md", "n/a");
               ("/run/logs/simpleqa.log", "hello");
               ("/run/logs/other.log", "bye")]) [].









(** A result file whose [accuracy] is [null]. *)
Definition null_accuracy_text : string :=
  dq "{'metrics': {'accuracy':null,'correct':1,'incorrect':0,'not_attempted':0,'total':1,'correct_given_attempted':1,'f_score':1}, 'results': [1]}".

Definition null_accuracy_metrics : value :=
  PyDict [ ("accuracy", PyNone); ("correct", PyInt 1); ("incorrect", PyInt 0);
           ("not_attempted", PyInt 0); ("total", PyInt 1);
           ("correct_given_attempted", PyInt 1); ("f_score", PyInt 1) ].

Definition null_accuracy_top : value :=
  PyDict [("metrics", null_accuracy_metrics); ("results", PyList [PyInt 1])].


(** ** Vocabulary of the statements *)

(** The item of [v] under [key], when [v] is a dictionary that has it. *)
Definition field (v : value) (key : string) : option value :=
  match v with
  | PyDict d => dict_get key d
  | _ => None
  end.

Definition metric_names : list string :=
  [ "accuracy"; "correct"; "incorrect"; "not_attempted"; "total";
    "correct_given_attempted"; "f_score" ].

(** The metrics the adapter copies from [m]: the seven names with the
    values [m] holds for them. *)
Definition copied_metrics (m : value) : dict :=
  flat_map (fun k => match field m k with
                     | Some x => [(k, x)]
                     | None => []
                     end) metric_names.

(** The seven fields are present in [m] and each holds a number. *)
Definition number_fields (m : value) : Prop :=
  Forall (fun k => exists x, field m k = Some x /\ is_number x = true)
         metric_names.

Definition log_path (self : SimpleQABench) : string :=
  os_path_join (log_files_dir self) "simpleqa.log".

Definition result_files (entries : list string) : list string :=
  filter (fun f => endswith f "_result.json") entries.

(** [path] is the result file [get_result] selects in [w]: the listing of
    the results directory succeeds and [path] is its first matching entry,
    joined to the directory. *)
Definition selected (self : SimpleQABench) (w : world) (path : string) : Prop :=
  exists entries first rest,
    fs_listdir (files w) (results_dir self) = inr entries /\
    result_files entries = first :: rest /\
    path = os_path_join (results_dir self) first.

(** The file at [path] opens, reads and decodes to [top]. *)
Definition loads `{Runtime} (w : world) (path : string) (top : value) : Prop :=
  fs_open (files w) path = None /\
  exists text, fs_read (files w) path = inr text /\ json_loads text = inr top.

(** [text] is what the adapter takes as the log in [w]: the text of
    [simpleqa.log] when the file exists, which must then open and read, and
    the empty string when it does not. *)
Definition log_text (self : SimpleQABench) (w : world) (text : string) : Prop :=
  if fs_exists (files w) (log_path self)
  then fs_open (files w) (log_path self) = None /\
       fs_read (files w) (log_path self) = inr text
  else text = "".

(** [v[:n]], when [v] can be sliced. *)
Definition slice_value (n : nat) (v : value) : option value :=
  match v with
  | PyList l => Some (PyList (firstn n l))
  | PyStr s => Some (PyStr (substring 0 n s))
  | _ => None
  end.

(** The results the [try] body of [get_result] returns for the file at
    [path], and what each needs; the last premise is that the constructor
    accepts the metrics. *)
Inductive resolved `{Runtime} (self : SimpleQABench) (t : string) (w : world)
    (path : string) : BenchmarkResult -> Prop :=
| Resolved top log_content m accuracy correct incorrect not_attempted total
      correct_given_attempted f_score detailed first_ten :
    loads w path top ->
    log_text self w log_content ->
    field top "metrics" = Some m ->
    field m "accuracy" = Some accuracy ->
    field m "correct" = Some correct ->
    field m "incorrect" = Some incorrect ->
    field m "not_attempted" = Some not_attempted ->
    field m "total" = Some total ->
    field m "correct_given_attempted" = Some correct_given_attempted ->
    field m "f_score" = Some f_score ->
    field top "results" = Some detailed ->
    slice_value 10 detailed = Some first_ten ->
    metrics_error
      [ ("accuracy", accuracy);
        ("correct", correct);
        ("incorrect", incorrect);
        ("not_attempted", not_attempted);
        ("total", total);
        ("correct_given_attempted", correct_given_attempted);
        ("f_score", f_score) ] = None ->
    resolved self t w path
      {| task_id := t;
         is_resolved := true;
         log := [("content", PyStr log_content)];
         metrics :=
           [ ("accuracy", accuracy);
             ("correct", correct);
             ("incorrect", incorrect);
             ("not_attempted", not_attempted);
             ("total", total);
             ("correct_given_attempted", correct_given_attempted);
             ("f_score", f_score) ];
         other :=
           [ ("success", PyStr ("Evaluated " ++ py_str total ++ " examples"));
             ("detailed_results", first_ten) ] |}.

(** The statements of the [try] body after the log has been read: from
    [metrics = results["metrics"]] to the [return]. *)
Definition build_result `{Runtime}
    (task_id log_content : string) (results : value) : M BenchmarkResult :=
  metrics <- getitem results "metrics" ;;
  accuracy <- getitem metrics "accuracy" ;;
  correct <- getitem metrics "correct" ;;
  incorrect <- getitem metrics "incorrect" ;;
  not_attempted <- getitem metrics "not_attempted" ;;
  total <- getitem metrics "total" ;;
  correct_given_attempted <- getitem metrics "correct_given_attempted" ;;
  f_score <- getitem metrics "f_score" ;;
  evaluated <- getitem metrics "total" ;;
  detailed <- getitem results "results" ;;
  first_ten <- slice_to 10 detailed ;;
  new_result
      {| task_id := task_id;
         is_resolved := true;
         log := [("content", PyStr log_content)];
         metrics :=
           [ ("accuracy", accuracy);
             ("correct", correct);
             ("incorrect", incorrect);
             ("not_attempted", not_attempted);
             ("total", total);
             ("correct_given_attempted", correct_given_attempted);
             ("f_score", f_score) ];
         other :=
           [ ("success", PyStr ("Evaluated " ++ py_str evaluated ++ " examples"));
             ("detailed_results", first_ten) ] |}.

(** A computation whose outcome does not depend on the world at all. *)
Definition world_free {A} (m : M A) : Prop :=
  forall w1 w2, fst (m w1) = fst (m w2).

(** Two worlds agree at [path]: opening and reading it gives the same. *)
Definition same_file (w1 w2 : world) (path : string) : Prop :=
  fs_open (files w1) path = fs_open (files w2) path /\
  fs_read (files w1) path = fs_read (files w2) path.

(** [first] is the first name of [entries] that ends with
    [_result.json]. *)
Definition first_match (entries : list string) (first : string) : Prop :=
  exists skipped rest,
    entries = (skipped ++ first :: rest)%list /\
    (forall f, In f skipped -> endswith f "_result.json" = false) /\
    endswith first "_result.json" = true.

(** A computation that leaves the world as it found it. *)
Definition read_only {A} (m : M A) : Prop := forall w, snd (m w) = w.

(** A computation whose outcome depends on the files alone, not on the
    handles that happen to be open. *)
Definition files_only {A} (m : M A) : Prop :=
  forall w1 w2, files w1 = files w2 -> fst (m w1) = fst (m w2).

(** * Properties *)

Section Monad.
Context {A B : Type}.

Lemma bind_inr (m : M A) (k : A -> M B) w b w' :
  bind m k w = (inr b, w') ->
  exists a w1, m w = (inr a, w1) /\ k a w1 = (inr b, w').
Proof.
  unfold bind. destruct (m w) as [[e | a] w1]; intros E.
  - discriminate.
  - eauto.
Qed.

Lemma bind_step (m : M A) (k : A -> M B) w a w1 :
  m w = (inr a, w1) -> bind m k w = k a w1.
Proof. unfold bind. intros ->. reflexivity. Qed.

Lemma read_only_bind (m : M A) (k : A -> M B) :
  read_only m -> (forall a, read_only (k a)) -> read_only (bind m k).
Proof.
  intros Hm Hk w. unfold bind. specialize (Hm w).
  destruct (m w) as [[e | a] w1]; simpl in *; subst.
  - reflexivity.
  - apply Hk.
Qed.

Lemma read_only_ret (a : A) : read_only (ret a).
Proof. intros w. reflexivity. Qed.

Lemma read_only_raise (e : exn) : read_only (@raise A e).
Proof. intros w. reflexivity. Qed.

Lemma read_only_lift (r : exn + A) : read_only (lift r).
Proof. intros w. reflexivity. Qed.

Lemma read_only_try (body : M A) (handler : exn -> M A) :
  read_only body -> (forall e, read_only (handler e)) ->
  read_only (try_except body handler).
Proof.
  intros Hb Hh w. unfold try_except. specialize (Hb w).
  destruct (body w) as [[e | a] w1]; simpl in *; subst.
  - apply Hh.
  - reflexivity.
Qed.

Lemma read_only_eq (m : M A) w : read_only m -> m w = (fst (m w), w).
Proof. intros Hm. rewrite <- (Hm w) at 3. destruct (m w); reflexivity. Qed.

Lemma files_only_bind (m : M A) (k : A -> M B) :
  read_only m -> files_only m -> (forall a, files_only (k a)) ->
  files_only (bind m k).
Proof.
  intros Hr Hm Hk w1 w2 Hw. unfold bind.
  rewrite (read_only_eq m w1 Hr), (read_only_eq m w2 Hr), (Hm w1 w2 Hw).
  destruct (fst (m w2)) as [e | a]; [reflexivity |].
  apply Hk. exact Hw.
Qed.

Lemma files_only_try (body : M A) (handler : exn -> M A) :
  read_only body -> files_only body -> (forall e, files_only (handler e)) ->
  files_only (try_except body handler).
Proof.
  intros Hr Hb Hh w1 w2 Hw. unfold try_except.
  rewrite (read_only_eq body w1 Hr), (read_only_eq body w2 Hr), (Hb w1 w2 Hw).
  destruct (fst (body w2)) as [e | a]; [| reflexivity].
  apply Hh. exact Hw.
Qed.

Lemma files_only_ret (a : A) : files_only (ret a).
Proof. intros w1 w2 _. reflexivity. Qed.
End Monad.

Lemma remove_first_head h hs : remove_first h (h :: hs) = hs.
Proof. simpl. rewrite String.eqb_refl. reflexivity. Qed.

Lemma is_open_head h fs hs : is_open h (World fs (h :: hs)) = true.
Proof. unfold is_open. simpl. rewrite String.eqb_refl. reflexivity. Qed.

Lemma read_only_listdir path : read_only (os_listdir path).
Proof. intros w. reflexivity. Qed.

Lemma read_only_exists path : read_only (os_path_exists path).
Proof. intros w. reflexivity. Qed.

Lemma read_only_f_read h : read_only (f_read h).
Proof. intros w. unfold f_read. destruct (is_open h w); reflexivity. Qed.

(** A [with] block whose body only reads closes the handle it opened:
    the table of open handles is afterwards what it was. *)
Lemma read_only_with_open {A} path (body : string -> M A) :
  (forall f, read_only (body f)) -> read_only (with_open path body).
Proof.
  intros Hb [fs hs]. unfold with_open, bind, py_open. simpl.
  destruct (fs_open fs path) as [e |]; [reflexivity |].
  specialize (Hb path (World fs (path :: hs))).
  destruct (body path (World fs (path :: hs))) as [r w1]. simpl in *. subst w1.
  simpl. rewrite String.eqb_refl. reflexivity.
Qed.

(** What a [with] block gives when its body only reads. *)
Lemma with_open_read_only {A} path (body : string -> M A) w :
  (forall f, read_only (body f)) ->
  with_open path body w =
    match fs_open (files w) path with
    | Some e => (inl e, w)
    | None => (fst (body path (World (files w) (path :: handles w))), w)
    end.
Proof.
  intros Hb. rewrite (read_only_eq _ w (read_only_with_open path body Hb)).
  f_equal. unfold with_open, bind, py_open.
  destruct (fs_open (files w) path) as [e |]; [reflexivity |].
  destruct (body path _) as [r w1]. reflexivity.
Qed.

Section Adapter.
Context {rt : Runtime}.

Lemma read_only_json_load f : read_only (json_load f).
Proof.
  unfold json_load. apply read_only_bind.
  - apply read_only_f_read.
  - intros text. apply read_only_lift.
Qed.

Lemma read_only_getitem v key : read_only (getitem v key).
Proof.
  intros w. unfold getitem.
  destruct v; try reflexivity. destruct (dict_get key items); reflexivity.
Qed.

Lemma read_only_slice_to n v : read_only (slice_to n v).
Proof. intros w. destruct v; reflexivity. Qed.

Lemma read_only_new_result r : read_only (new_result r).
Proof.
  intros w. unfold new_result. destruct (metrics_error (metrics r)); reflexivity.
Qed.

Lemma files_only_new_result r : files_only (new_result r).
Proof.
  intros w1 w2 _. unfold new_result.
  destruct (metrics_error (metrics r)); reflexivity.
Qed.

Lemma new_result_accepted r w :
  metrics_error (metrics r) = None -> new_result r w = (inr r, w).
Proof. unfold new_result. intros ->. reflexivity. Qed.

Lemma new_result_inr r r' w w' :
  new_result r w = (inr r', w') ->
  metrics_error (metrics r) = None /\ r' = r /\ w' = w.
Proof.
  unfold new_result. destruct (metrics_error (metrics r)); unfold ret, raise;
    intros E; inversion E; auto.
Qed.

(** The constructor accepts both failure records. *)
Lemma new_result_failure t msg w :
  new_result (failure t msg) w = (inr (failure t msg), w).
Proof. apply new_result_accepted. apply metrics_error_numbers. reflexivity. Qed.

Lemma getitem_field v key x w :
  field v key = Some x -> getitem v key w = (inr x, w).
Proof.
  destruct v; simpl; try discriminate. intros ->. reflexivity.
Qed.

Lemma getitem_inr v key x w w' :
  getitem v key w = (inr x, w') -> field v key = Some x /\ w' = w.
Proof.
  destruct v; simpl; try discriminate.
  destruct (dict_get key items); unfold ret, raise; intros E; inversion E; auto.
Qed.

(** Opening and decoding the result file. *)
Lemma load_result path w :
  with_open path json_load w =
    match fs_open (files w) path with
    | Some e => (inl e, w)
    | None =>
        match fs_read (files w) path with
        | inl e => (inl e, w)
        | inr text => (json_loads text, w)
        end
    end.
Proof.
  rewrite with_open_read_only by apply read_only_json_load.
  destruct (fs_open (files w) path); [reflexivity |].
  unfold json_load, bind, f_read. rewrite is_open_head. simpl.
  destruct (fs_read (files w) path); reflexivity.
Qed.

Lemma read_only_log path present :
  read_only (if present : bool then with_open path f_read else ret "").
Proof.
  destruct present.
  - apply read_only_with_open. intros f. apply read_only_f_read.
  - apply read_only_ret.
Qed.

Lemma read_only_parse_results self t path :
  read_only (parse_results self t path).
Proof.
  unfold parse_results.
  repeat first
    [ apply read_only_ret
    | apply read_only_new_result
    | apply read_only_getitem
    | apply read_only_slice_to
    | apply read_only_exists
    | apply read_only_log
    | apply read_only_with_open; intros ?; apply read_only_json_load
    | apply read_only_bind; [| intros ?] ].
Qed.

(** [get_result] leaves the files as they are and every handle it opened
    closed, on the paths that return and on the paths that raise. *)
Lemma read_only_get_result self t : read_only (get_result self t).
Proof.
  unfold get_result. apply read_only_bind.
  - apply read_only_listdir.
  - intros entries. destruct (filter _ entries).
    + apply read_only_new_result.
    + apply read_only_try.
      * apply read_only_parse_results.
      * intros e. apply read_only_new_result.
Qed.

Lemma slice_to_inr n v x w w' :
  slice_to n v w = (inr x, w') -> slice_value n v = Some x /\ w' = w.
Proof.
  destruct v; simpl; unfold ret, raise; intros E; inversion E; auto.
Qed.

Lemma slice_to_value n v x w :
  slice_value n v = Some x -> slice_to n v w = (inr x, w).
Proof.
  destruct v; simpl; try discriminate; intros E; inversion E; reflexivity.
Qed.

Lemma load_result_inr path w top w' :
  with_open path json_load w = (inr top, w') -> loads w path top /\ w' = w.
Proof.
  rewrite load_result. unfold loads.
  destruct (fs_open (files w) path); [discriminate |].
  destruct (fs_read (files w) path) as [e | text]; [discriminate |].
  intros E. inversion E. subst. eauto.
Qed.

Lemma load_result_loads path w top :
  loads w path top -> with_open path json_load w = (inr top, w).
Proof.
  intros (Ho & text & Hr & Hd). rewrite load_result, Ho, Hr, Hd. reflexivity.
Qed.

Lemma load_log_inr self w text w' :
  (if fs_exists (files w) (log_path self)
   then with_open (log_path self) f_read else ret "") w = (inr text, w') ->
  log_text self w text /\ w' = w.
Proof.
  unfold log_text. destruct (fs_exists (files w) (log_path self)).
  - rewrite with_open_read_only by apply read_only_f_read.
    destruct (fs_open (files w) (log_path self)); [discriminate |].
    unfold f_read. rewrite is_open_head. simpl.
    intros E. inversion E. auto.
  - unfold ret. intros E. inversion E. auto.
Qed.

Lemma load_log_text self w text :
  log_text self w text ->
  (if fs_exists (files w) (log_path self)
   then with_open (log_path self) f_read else ret "") w = (inr text, w).
Proof.
  unfold log_text. destruct (fs_exists (files w) (log_path self)).
  - intros [Ho Hr].
    rewrite with_open_read_only by apply read_only_f_read.
    rewrite Ho. unfold f_read. rewrite is_open_head. simpl. rewrite Hr.
    reflexivity.
  - intros ->. reflexivity.
Qed.

Ltac next_item E x Hx :=
  let w := fresh "w" in
  apply bind_inr in E as (x & w & Hx & E);
  apply getitem_inr in Hx as [Hx ->].

(** The [try] body returns exactly the results of [resolved]. *)
Lemma parse_results_inr self t path w r w' :
  parse_results self t path w = (inr r, w') ->
  resolved self t w path r /\ w' = w.
Proof.
  unfold parse_results. intros E.
  apply bind_inr in E as (top & w1 & E1 & E).
  apply load_result_inr in E1 as [Hload ->].
  apply bind_inr in E as (present & w1 & E1 & E).
  unfold os_path_exists in E1. inversion E1. subst present w1. clear E1.
  apply bind_inr in E as (text & w1 & E1 & E).
  apply load_log_inr in E1 as [Hlog ->].
  next_item E m Hm. next_item E a Ha. next_item E c Hc. next_item E i Hi.
  next_item E n Hn. next_item E tot Htot. next_item E cga Hcga.
  next_item E f Hf. next_item E ev Hev. next_item E d Hd.
  apply bind_inr in E as (ft & w1 & E1 & E).
  apply slice_to_inr in E1 as [Hslice ->].
  apply new_result_inr in E as (Hacc & -> & ->). split; [| reflexivity].
  replace ev with tot in * by congruence.
  econstructor; eassumption.
Qed.

Lemma parse_results_resolved self t path w r :
  resolved self t w path r -> parse_results self t path w = (inr r, w).
Proof.
  intros [top lc m a c i n tot cga f d ft
            Hload Hlog Hm Ha Hc Hi Hn Htot Hcga Hf Hd Hft Hacc].
  unfold parse_results.
  rewrite (bind_step _ _ _ _ _ (load_result_loads _ _ _ Hload)).
  unfold bind at 1. unfold os_path_exists.
  rewrite (bind_step _ _ _ _ _ (load_log_text _ _ _ Hlog)).
  repeat (erewrite bind_step by (apply getitem_field; eassumption)).
  erewrite bind_step by (apply slice_to_value; eassumption).
  apply new_result_accepted. exact Hacc.
Qed.

Lemma files_only_getitem v key : files_only (getitem v key).
Proof.
  intros w1 w2 _. unfold getitem.
  destruct v; try reflexivity. destruct (dict_get key items); reflexivity.
Qed.

Lemma files_only_slice_to n v : files_only (slice_to n v).
Proof. intros w1 w2 _. destruct v; reflexivity. Qed.

Lemma files_only_load_result path : files_only (with_open path json_load).
Proof.
  intros w1 w2 Hw. rewrite !load_result, Hw.
  destruct (fs_open (files w2) path); [reflexivity |].
  destruct (fs_read (files w2) path); reflexivity.
Qed.

Lemma files_only_log path present :
  files_only (if present : bool then with_open path f_read else ret "").
Proof.
  destruct present; [| apply files_only_ret].
  intros w1 w2 Hw.
  rewrite !with_open_read_only by apply read_only_f_read. rewrite Hw.
  destruct (fs_open (files w2) path); [reflexivity |].
  unfold f_read. rewrite !is_open_head. reflexivity.
Qed.

Lemma files_only_parse_results self t path :
  files_only (parse_results self t path).
Proof.
  unfold parse_results.
  apply files_only_bind;
    [apply read_only_with_open; intros ?; apply read_only_json_load
    | apply files_only_load_result | intros ?].
  apply files_only_bind;
    [apply read_only_exists | intros w1 w2 Hw; simpl; rewrite Hw; reflexivity
    | intros ?].
  apply files_only_bind; [apply read_only_log | apply files_only_log | intros ?].
  do 10 (apply files_only_bind;
           [apply read_only_getitem | apply files_only_getitem | intros ?]).
  apply files_only_bind;
    [apply read_only_slice_to | apply files_only_slice_to | intros ?].
  apply files_only_new_result.
Qed.

(** The outcome of [get_result] is a function of the files. *)
Lemma files_only_get_result self t : files_only (get_result self t).
Proof.
  unfold get_result. apply files_only_bind.
  - apply read_only_listdir.
  - intros w1 w2 Hw. simpl. rewrite Hw. reflexivity.
  - intros entries. destruct (filter _ entries).
    + apply files_only_new_result.
    + apply files_only_try.
      * apply read_only_parse_results.
      * apply files_only_parse_results.
      * intros e. apply files_only_new_result.
Qed.

(** [get_result] once the results directory has been listed. *)
Lemma get_result_listed self t w entries :
  fs_listdir (files w) (results_dir self) = inr entries ->
  get_result self t w =
    match result_files entries with
    | [] => (inr (failure t "No results found"), w)
    | first :: _ =>
        match parse_results self t (os_path_join (results_dir self) first) w with
        | (inl e, _) =>
            (inr (failure t ("Error parsing results: " ++ exn_str e)), w)
        | (inr r, _) => (inr r, w)
        end
    end.
Proof.
  intros Hl. unfold get_result, bind at 1, os_listdir. rewrite Hl.
  fold (result_files entries). destruct (result_files entries) as [| first rest].
  - apply new_result_failure.
  - unfold try_except.
    rewrite (read_only_eq _ w (read_only_parse_results self t _)).
    destruct (fst _); [apply new_result_failure | reflexivity].
Qed.

Lemma get_result_selected self t w path :
  selected self w path ->
  get_result self t w =
    match fst (parse_results self t path w) with
    | inl e => (inr (failure t ("Error parsing results: " ++ exn_str e)), w)
    | inr r => (inr r, w)
    end.
Proof.
  intros (entries & first & rest & Hl & Hf & ->).
  rewrite (get_result_listed _ _ _ _ Hl), Hf.
  destruct (parse_results _ _ _ _) as [[e | r] w1]; reflexivity.
Qed.

(** A resolved result comes from the [try] body, run on the selected
    file. *)
Lemma get_result_inr_resolved self t w r w' :
  get_result self t w = (inr r, w') -> is_resolved r = true ->
  exists path, selected self w path /\ resolved self t w path r.
Proof.
  intros E Hres.
  destruct (fs_listdir (files w) (results_dir self)) as [e | entries] eqn:Hl.
  - unfold get_result, bind, os_listdir in E. rewrite Hl in E. discriminate.
  - rewrite (get_result_listed _ _ _ _ Hl) in E.
    destruct (result_files entries) as [| first rest] eqn:Hf.
    + inversion E. subst. discriminate.
    + exists (os_path_join (results_dir self) first). split.
      * exists entries, first, rest. auto.
      * destruct (parse_results _ _ _ _) as [[e | r'] w1] eqn:Hp.
        -- inversion E. subst. discriminate.
        -- inversion E. subst. apply parse_results_inr in Hp as [Hp _].
           exact Hp.
Qed.

Ltac seven_numbers Hall :=
  unfold number_fields, metric_names in Hall;
  repeat match goal with
         | H : Forall _ (_ :: _) |- _ => inversion H; clear H; subst
         end;
  repeat match goal with
         | H : exists x, field _ _ = Some x /\ is_number x = true |- _ =>
             let x := fresh "x" in
             let Hx := fresh "Hx" in
             let Hn := fresh "Hn" in
             destruct H as (x & Hx & Hn)
         end.

(** Seven numbers are metrics the constructor accepts. *)
Lemma seven_numbers_accepted a c i n tot cga f :
  is_number a = true -> is_number c = true -> is_number i = true ->
  is_number n = true -> is_number tot = true -> is_number cga = true ->
  is_number f = true ->
  metrics_error
    [ ("accuracy", a); ("correct", c); ("incorrect", i); ("not_attempted", n);
      ("total", tot); ("correct_given_attempted", cga); ("f_score", f) ] = None.
Proof.
  intros Ha Hc Hi Hn Ht Hg Hf. apply metrics_error_numbers.
  unfold all_numbers. simpl. rewrite Ha, Hc, Hi, Hn, Ht, Hg, Hf. reflexivity.
Qed.

(** The result for a well-formed result file, with numbers as metrics and
    ["results"] that can be sliced, and a log that is absent or readable. *)
Lemma get_result_sliced self t w path top m d ft log_content :
  selected self w path ->
  loads w path top ->
  field top "metrics" = Some m ->
  number_fields m ->
  field top "results" = Some d ->
  slice_value 10 d = Some ft ->
  log_text self w log_content ->
  exists r, get_result self t w = (inr r, w) /\
            resolved self t w path r /\
            log r = [("content", PyStr log_content)] /\
            (forall k, In k metric_names -> dict_get k (metrics r) = field m k) /\
            dict_get "detailed_results" (other r) = Some ft.
Proof.
  intros Hsel Hload Hm Hall Hrs Hft Hlog.
  seven_numbers Hall.
  eexists. split; [| split; [| split; [| split]]].
  - rewrite (get_result_selected _ _ _ _ Hsel).
    erewrite parse_results_resolved; [reflexivity |].
    econstructor; try eassumption.
    apply seven_numbers_accepted; assumption.
  - econstructor; try eassumption.
    apply seven_numbers_accepted; assumption.
  - reflexivity.
  - intros k Hk. simpl in Hk.
    repeat (destruct Hk as [<- | Hk]; [simpl; congruence |]).
    contradiction.
  - reflexivity.
Qed.

Lemma get_result_well_formed self t w path top m rs log_content :
  selected self w path ->
  loads w path top ->
  field top "metrics" = Some m ->
  number_fields m ->
  field top "results" = Some (PyList rs) ->
  log_text self w log_content ->
  exists r, get_result self t w = (inr r, w) /\
            resolved self t w path r /\
            log r = [("content", PyStr log_content)] /\
            (forall k, In k metric_names -> dict_get k (metrics r) = field m k) /\
            dict_get "detailed_results" (other r) = Some (PyList (firstn 10 rs)).
Proof.
  intros Hsel Hload Hm Hall Hrs Hlog.
  apply (get_result_sliced self t w path top m (PyList rs)); auto.
Qed.
End Adapter.

(** ** Strings *)

Lemma substring_all s : substring 0 (String.length s) s = s.
Proof. induction s; simpl; congruence. Qed.

Lemma substring_append_right pre s :
  substring (String.length pre) (String.length s) (pre ++ s) = s.
Proof. induction pre; simpl; [apply substring_all | assumption]. Qed.

Lemma length_append (a b : string) :
  String.length (a ++ b) = String.length a + String.length b.
Proof. induction a; simpl; congruence. Qed.

Lemma substring_split n s :
  n <= String.length s ->
  s = substring 0 n s ++ substring n (String.length s - n) s.
Proof.
  revert n. induction s as [| c s IH]; intros [| n] Hn; simpl in *.
  - reflexivity.
  - lia.
  - rewrite substring_all. reflexivity.
  - rewrite <- IH by lia. reflexivity.
Qed.

(** [endswith] holds exactly of the strings that end with the suffix. *)
Lemma endswith_spec s suffix :
  endswith s suffix = true <-> exists pre, s = pre ++ suffix.
Proof.
  unfold endswith. rewrite andb_true_iff, Nat.leb_le, String.eqb_eq. split.
  - intros [Hle Heq]. exists (substring 0 (String.length s - String.length suffix) s).
    rewrite <- Heq at 2.
    replace (String.length suffix)
      with (String.length s - (String.length s - String.length suffix)) at 3 by lia.
    apply substring_split. lia.
  - intros [pre ->]. rewrite length_append. split; [lia |].
    replace (String.length pre + String.length suffix - String.length suffix)
      with (String.length pre) by lia.
    apply substring_append_right.
Qed.

Lemma result_files_nil entries :
  (forall f, In f entries -> ~ exists pre, f = pre ++ "_result.json") ->
  result_files entries = [].
Proof.
  intros Hno. unfold result_files.
  induction entries as [| f rest IH]; [reflexivity |]. simpl.
  destruct (endswith f "_result.json") eqn:He.
  - exfalso. apply (Hno f); [left; reflexivity |]. apply endswith_spec, He.
  - apply IH. intros g Hg. apply Hno. right. exact Hg.
Qed.

(** * The claims *)

(** C1, as amended.  Whenever the results directory can be listed,
    [get_result] returns a record and raises nothing, in the world it was
    called in; the record is unresolved when there is no result file, when
    the [try] body raises, whatever it raises, and in particular when the
    selected file cannot be opened, read or decoded. *)
Theorem get_result_returns_when_listed `{Runtime} self t w entries :
  fs_listdir (files w) (results_dir self) = inr entries ->
  exists r,
    get_result self t w = (inr r, w) /\
    (result_files entries = [] -> is_resolved r = false) /\
    (forall first rest e w',
        result_files entries = first :: rest ->
        parse_results self t (os_path_join (results_dir self) first) w = (inl e, w') ->
        is_resolved r = false) /\
    (forall path,
        selected self w path -> (forall top, ~ loads w path top) ->
        is_resolved r = false).
Proof.
  intros Hl. rewrite (get_result_listed _ _ _ _ Hl).
  destruct (result_files entries) as [| first rest] eqn:Hf.
  - eexists. split; [reflexivity |]. repeat split.
  - destruct (parse_results self t (os_path_join (results_dir self) first) w)
      as [[e | r] w1] eqn:Hp.
    + eexists. split; [reflexivity |]. repeat split; reflexivity.
    + exists r. split; [reflexivity |]. split; [discriminate |]. split.
      * intros first' rest' e w' Hf' Hp'. inversion Hf'. subst first' rest'.
        rewrite Hp in Hp'. discriminate.
      * intros path (entries' & first' & rest' & Hl' & Hf' & ->) Hno.
        rewrite Hl in Hl'. inversion Hl'. subst entries'.
        rewrite Hf in Hf'. inversion Hf'. subst first' rest'.
        apply parse_results_inr in Hp as [Hp _].
        destruct Hp as [top]. exfalso. apply (Hno top). assumption.
Qed.

(** C2, as amended.  When the selected file loads as a dictionary whose
    ["metrics"] holds the seven fields, each a number, and whose
    ["results"] is a list, and [simpleqa.log] is absent or opens and reads,
    [get_result] returns a resolved record: the seven metrics are the
    fields of the file, in this order, and [detailed_results] is the first
    10 elements of the list, all of them when there are at most 10. *)
Theorem get_result_resolved `{Runtime} self t w path top m rs log_content :
  selected self w path ->
  loads w path top ->
  field top "metrics" = Some m ->
  number_fields m ->
  field top "results" = Some (PyList rs) ->
  log_text self w log_content ->
  exists r,
    get_result self t w = (inr r, w) /\
    is_resolved r = true /\
    keys (metrics r) = metric_names /\
    (forall k, In k metric_names -> dict_get k (metrics r) = field m k) /\
    dict_get "detailed_results" (other r) = Some (PyList (firstn 10 rs)) /\
    (length rs <= 10 -> firstn 10 rs = rs) /\
    (10 < length rs -> length (firstn 10 rs) = 10).
Proof.
  intros Hsel Hload Hm Hall Hrs Hlog.
  destruct (get_result_well_formed self t w path top m rs log_content)
    as (r & Hr & Hres & _ & Hcopy & Hdet); try assumption.
  exists r. split; [exact Hr |].
  split; [destruct Hres; reflexivity |].
  split; [destruct Hres; reflexivity |].
  split; [exact Hcopy |]. split; [exact Hdet |]. split.
  - intros Hle. apply firstn_all2. exact Hle.
  - intros Hlt. apply firstn_length_le. lia.
Qed.

(** C3.  When the text of the selected file does not decode, or decodes
    to an object without ["metrics"], without one of the seven fields in
    it, or without ["results"], [get_result] returns an unresolved record
    with [metrics = {accuracy: 0.0}] and a non-empty [error]. *)
Theorem get_result_malformed `{Runtime} self t w path text :
  selected self w path ->
  fs_open (files w) path = None ->
  fs_read (files w) path = inr text ->
  ((exists e, json_loads text = inl e) \/
   (exists top, json_loads text = inr top /\
      (field top "metrics" = None \/
       (exists m k, field top "metrics" = Some m /\
                    In k metric_names /\ field m k = None) \/
       field top "results" = None))) ->
  exists r,
    get_result self t w = (inr r, w) /\
    is_resolved r = false /\
    metrics r = [("accuracy", PyFloat "0.0")] /\
    exists msg, other r = [("error", PyStr msg)] /\ msg <> "".
Proof.
  intros Hsel Hopen Hread Hbad.
  rewrite (get_result_selected _ _ _ _ Hsel).
  destruct (fst (parse_results self t path w)) as [e | r] eqn:Hp.
  - eexists. split; [reflexivity |]. repeat split.
    eexists. split; [reflexivity |]. discriminate.
  - exfalso.
    rewrite (read_only_eq _ w (read_only_parse_results self t path)) in Hp.
    assert (Hp' : parse_results self t path w = (inr r, w)).
    { rewrite (read_only_eq _ w (read_only_parse_results self t path)).
      destruct (fst (parse_results self t path w)); simpl in Hp; congruence. }
    apply parse_results_inr in Hp' as [Hres _].
    destruct Hres as [top lc m a c i n tot cga f d ft
                        (_ & text' & Hread' & Hdec) _ Hm Ha Hc Hi Hn Htot Hcga Hf Hd _].
    rewrite Hread in Hread'. inversion Hread'. subst text'.
    destruct Hbad as [[e He] | (top' & Hdec' & Hbad)]; [congruence |].
    rewrite Hdec in Hdec'. inversion Hdec'. subst top'.
    destruct Hbad as [Hno | [(m' & k & Hm' & Hk & Hno) | Hno]]; [congruence | | congruence].
    rewrite Hm in Hm'. inversion Hm'. subst m'.
    simpl in Hk.
    repeat (destruct Hk as [<- | Hk]; [congruence |]).
    contradiction.
Qed.

(** C4, as amended.  When the [try] body raises [e], the [error] of the
    returned record is the text ["Error parsing results: "] followed by
    [str(e)], unchanged. *)
Theorem get_result_error_text `{Runtime} self t w path e w' :
  selected self w path ->
  parse_results self t path w = (inl e, w') ->
  exists r,
    get_result self t w = (inr r, w) /\
    other r = [("error", PyStr ("Error parsing results: " ++ exn_str e))].
Proof.
  intros Hsel Hp. rewrite (get_result_selected _ _ _ _ Hsel), Hp. simpl.
  eexists. split; reflexivity.
Qed.

(** C5.  When the results directory lists no name that ends with
    [_result.json], [get_result] returns the unresolved record with the
    empty log message, [accuracy] 0.0 and the error ["No results found"]. *)
Theorem get_result_no_results `{Runtime} self t w entries :
  fs_listdir (files w) (results_dir self) = inr entries ->
  (forall f, In f entries -> ~ exists pre, f = pre ++ "_result.json") ->
  get_result self t w =
    (inr {| task_id := t;
            is_resolved := false;
            log := [("message", PyStr "")];
            metrics := [("accuracy", PyFloat "0.0")];
            other := [("error", PyStr "No results found")] |}, w).
Proof.
  intros Hl Hno. rewrite (get_result_listed _ _ _ _ Hl).
  rewrite (result_files_nil _ Hno). reflexivity.
Qed.

(** C6.  On the success path the [content] of the log is the text of
    [simpleqa.log] when the file exists and the empty string when it does
    not.  A well-formed result file gives a resolved record with the text
    of the log when the log exists and reads, and a resolved record with
    the empty string when there is no log: the missing log does not make
    the result a failure. *)
Theorem get_result_log `{Runtime} self t w :
  (forall r w',
      get_result self t w = (inr r, w') -> is_resolved r = true ->
      (fs_exists (files w) (log_path self) = true ->
       exists text, fs_read (files w) (log_path self) = inr text /\
                    log r = [("content", PyStr text)]) /\
      (fs_exists (files w) (log_path self) = false ->
       log r = [("content", PyStr "")])) /\
  (forall path top m rs,
      selected self w path ->
      loads w path top ->
      field top "metrics" = Some m ->
      number_fields m ->
      field top "results" = Some (PyList rs) ->
      (forall text,
          fs_exists (files w) (log_path self) = true ->
          fs_open (files w) (log_path self) = None ->
          fs_read (files w) (log_path self) = inr text ->
          exists r, get_result self t w = (inr r, w) /\
                    is_resolved r = true /\
                    log r = [("content", PyStr text)]) /\
      (fs_exists (files w) (log_path self) = false ->
       exists r, get_result self t w = (inr r, w) /\
                 is_resolved r = true /\
                 log r = [("content", PyStr "")])).
Proof.
  split.
  - intros r w' E Hres.
    apply get_result_inr_resolved in E as (path & _ & Hr); [| exact Hres].
    destruct Hr as [top lc m a c i n tot cga f d ft _ Hlog]. simpl.
    unfold log_text in Hlog.
    destruct (fs_exists (files w) (log_path self)).
    + split; [| discriminate]. intros _. destruct Hlog as [_ Hread]. eauto.
    + split; [discriminate |]. intros _. rewrite Hlog. reflexivity.
  - intros path top m rs Hsel Hload Hm Hall Hrs. split.
    + intros text Hex Hopen Hread.
      destruct (get_result_well_formed self t w path top m rs text)
        as (r & Hr & Hres & Hlog & _); try assumption.
      { unfold log_text. rewrite Hex. split; assumption. }
      exists r. split; [exact Hr |]. split; [| exact Hlog].
      destruct Hres; reflexivity.
    + intros Habsent.
      destruct (get_result_well_formed self t w path top m rs "")
        as (r & Hr & Hres & Hlog & _); try assumption.
      { unfold log_text. rewrite Habsent. reflexivity. }
      exists r. split; [exact Hr |]. split; [| exact Hlog].
      destruct Hres; reflexivity.
Qed.

(** C7.  A second call of [get_result], made in the world the first call
    leaves behind, gives what the first call gave: the same record or the
    same exception, and the same world.  More generally two calls in
    worlds with the same files give the same record or exception. *)
Theorem get_result_idempotent `{Runtime} self t w :
  get_result self t (snd (get_result self t w)) = get_result self t w /\
  (forall w2, files w2 = files w ->
              fst (get_result self t w2) = fst (get_result self t w)).
Proof.
  split.
  - rewrite (read_only_get_result self t w). reflexivity.
  - intros w2 Hw. apply files_only_get_result. exact Hw.
Qed.

(** C9.  [get_all_tasks] gives the one task ["default"] and no error
    message, whatever the split. *)
Theorem get_all_tasks_fixed self split :
  get_all_tasks self split =
    [ ("task_ids", PyList [PyStr "default"]); ("error_message", PyNone) ].
Proof. reflexivity. Qed.

(** C10.  The metrics of a resolved record have exactly the seven keys,
    whatever else the ["metrics"] of the file holds. *)
Theorem get_result_metric_keys `{Runtime} self t w r w' :
  get_result self t w = (inr r, w') ->
  is_resolved r = true ->
  keys (metrics r) = metric_names.
Proof.
  intros E Hres.
  apply get_result_inr_resolved in E as (path & _ & Hr); [| exact Hres].
  destruct Hr. reflexivity.
Qed.

(** * The adapter on the examples *)

Example py_str_values :
  py_str (PyInt 0) = "0" /\ py_str (PyInt (-12)) = "-12" /\
  py_str (PyStr "ten") = "ten" /\ py_str (PyFloat "0.5") = "0.5" /\
  py_str (PyList [PyStr "a"; PyNone; PyBool true]) = "['a', None, True]" /\
  py_str (PyDict [("k", PyInt 1)]) = "{'k': 1}".
Proof. repeat split. Qed.

Example endswith_names :
  endswith "abc_result.json" "_result.json" = true /\
  endswith "_result.json" "_result.json" = true /\
  endswith "result.json" "_result.json" = false /\
  endswith "abc_result.json.bak" "_result.json" = false.
Proof. repeat split. Qed.

Example decode_good : decode good_text = inr good_top.
Proof. reflexivity. Qed.

Example decode_fifteen : decode fifteen_text = inr fifteen_top.
Proof. reflexivity. Qed.

(** The file of the fourth testable property, with the log ["hello"]. *)
Example get_result_good :
  get_result bench "default" w_good = (inr good_result, w_good).
Proof. reflexivity. Qed.

Example get_result_fifteen :
  get_result bench "default" w_nolog = (inr fifteen_result, w_nolog).
Proof. reflexivity. Qed.

Example get_result_results_not_a_list :
  fst (get_result bench "default"
         (w_text (dq "{'metrics': {'accuracy':1,'correct':1,'incorrect':0,'not_attempted':0,'total':1,'correct_given_attempted':1,'f_score':1}, 'results': 'abcdefghijkl'}")))
  = inr {| task_id := "default";
           is_resolved := true;
           log := [("content", PyStr "")];
           metrics :=
             [ ("accuracy", PyInt 1); ("correct", PyInt 1); ("incorrect", PyInt 0);
               ("not_attempted", PyInt 0); ("total", PyInt 1);
               ("correct_given_attempted", PyInt 1); ("f_score", PyInt 1) ];
           other :=
             [ ("success", PyStr "Evaluated 1 examples");
               ("detailed_results", PyStr "abcdefghij") ] |}.
Proof. reflexivity. Qed.

(** * The claims on the examples *)

Lemma selected_good : selected bench w_good result_path.
Proof.
  exists ["notes.txt"; "abc_result.json"], "abc_result.json", [].
  repeat split.
Qed.

Lemma selected_nolog : selected bench w_nolog result_path.
Proof. exists ["abc_result.json"], "abc_result.json", []. repeat split. Qed.

Lemma selected_logdir : selected bench w_logdir result_path.
Proof. exists ["abc_result.json"], "abc_result.json", []. repeat split. Qed.

Lemma selected_text text : selected bench (w_text text) result_path.
Proof. exists ["abc_result.json"], "abc_result.json", []. repeat split. Qed.

Ltac numbers_of_file :=
  unfold number_fields, metric_names;
  repeat (constructor; [eexists; split; reflexivity |]); constructor.

Lemma number_fields_fifteen : number_fields fifteen_metrics.
Proof. numbers_of_file. Qed.

Lemma number_fields_good : number_fields good_metrics.
Proof. numbers_of_file. Qed.

Lemma seven_fields_good :
  Forall (fun k => field good_metrics k <> None) metric_names.
Proof. repeat constructor; discriminate. Qed.

(** C1 at a directory that holds no result file. *)
Lemma get_result_returns_when_listed_witness :
  exists r,
    get_result bench "default" w_empty = (inr r, w_empty) /\
    is_resolved r = false.
Proof.
  destruct (@get_result_returns_when_listed cpython bench "default" w_empty
              ["notes.txt"] eq_refl) as (r & Hr & Hnil & _).
  exists r. split; [exact Hr | apply Hnil; reflexivity].
Defined.

(** C1 fails as stated: with no results directory, [os.listdir] raises
    and [get_result] passes the exception on to its caller. *)
Lemma get_result_raises_without_results_dir :
  fst (get_result bench "default" w_absent)
    = inl (FileNotFoundError "/run/results") /\
  ~ exists r w', get_result bench "default" w_absent = (inr r, w').
Proof.
  split; [reflexivity |].
  intros (r & w' & E). apply (f_equal fst) in E. discriminate E.
Qed.

(** C2 at a result file with 15 results and no log. *)
Lemma get_result_resolved_witness :
  exists r,
    get_result bench "default" w_nolog = (inr r, w_nolog) /\
    is_resolved r = true /\
    keys (metrics r) = metric_names /\
    (forall k, In k metric_names ->
               dict_get k (metrics r) = field fifteen_metrics k) /\
    dict_get "detailed_results" (other r)
      = Some (PyList (firstn 10 fifteen_results)) /\
    (length fifteen_results <= 10 -> firstn 10 fifteen_results = fifteen_results) /\
    (10 < length fifteen_results -> length (firstn 10 fifteen_results) = 10).
Proof.
  apply (@get_result_resolved cpython bench "default" w_nolog result_path
           fifteen_top fifteen_metrics fifteen_results "").
  - exact selected_nolog.
  - split; [reflexivity |]. exists fifteen_text. split; reflexivity.
  - reflexivity.
  - exact number_fields_fifteen.
  - reflexivity.
  - reflexivity.
Defined.

(** C2 fails as stated: the result file is well formed, but
    [simpleqa.log] exists and cannot be opened, so the [try] body raises
    and the record is unresolved. *)
Lemma get_result_unreadable_log :
  selected bench w_logdir result_path /\
  loads w_logdir result_path good_top /\
  field good_top "metrics" = Some good_metrics /\
  Forall (fun k => field good_metrics k <> None) metric_names /\
  field good_top "results" = Some (PyList [PyInt 1; PyInt 2; PyInt 3]) /\
  get_result bench "default" w_logdir
    = (inr (failure "default"
              "Error parsing results: [Errno 21] Is a directory: '/run/logs/simpleqa.log'"),
       w_logdir) /\
  ~ exists r w', get_result bench "default" w_logdir = (inr r, w') /\
                 is_resolved r = true.
Proof.
  split; [exact selected_logdir |].
  split; [split; [reflexivity | exists good_text; split; reflexivity] |].
  split; [reflexivity |].
  split; [exact seven_fields_good |].
  split; [reflexivity |].
  split; [reflexivity |].
  intros (r & w' & E & Hres).
  assert (Hr : fst (get_result bench "default" w_logdir) = inr r)
    by (rewrite E; reflexivity).
  vm_compute in Hr. inversion Hr. subst r. discriminate Hres.
Qed.

(** C3 at a result file cut short. *)
Lemma get_result_malformed_witness :
  exists r,
    get_result bench "default" (w_text truncated_text)
      = (inr r, w_text truncated_text) /\
    is_resolved r = false /\
    metrics r = [("accuracy", PyFloat "0.0")] /\
    exists msg, other r = [("error", PyStr msg)] /\ msg <> "".
Proof.
  apply (@get_result_malformed cpython bench "default" (w_text truncated_text)
           result_path truncated_text).
  - exact (selected_text truncated_text).
  - reflexivity.
  - reflexivity.
  - left. exists (JSONDecodeError "Expecting value"). reflexivity.
Defined.

(** C4 at a result file that is an empty object: the lookup of
    ["metrics"] raises [KeyError]. *)
Lemma get_result_error_text_witness :
  exists r,
    get_result bench "default" (w_text empty_object_text)
      = (inr r, w_text empty_object_text) /\
    other r =
      [("error", PyStr ("Error parsing results: " ++ exn_str (KeyError "metrics")))].
Proof.
  apply (@get_result_error_text cpython bench "default"
           (w_text empty_object_text) result_path (KeyError "metrics")
           (w_text empty_object_text)).
  - exact (selected_text empty_object_text).
  - reflexivity.
Defined.

(** C4 fails as stated: the [try] body raises [KeyError('metrics')],
    whose text is ['metrics'], and the record's [error] is that text after
    ["Error parsing results: "], not that text alone. *)
Lemma get_result_error_not_verbatim :
  parse_results bench "default" result_path (w_text empty_object_text)
    = (inl (KeyError "metrics"), w_text empty_object_text) /\
  exn_str (KeyError "metrics") = "'metrics'" /\
  get_result bench "default" (w_text empty_object_text)
    = (inr (failure "default" "Error parsing results: 'metrics'"),
       w_text empty_object_text) /\
  other (failure "default" "Error parsing results: 'metrics'")
    <> [("error", PyStr (exn_str (KeyError "metrics")))].
Proof.
  repeat split. discriminate.
Qed.

(** C5 at a directory whose one entry is not a result file. *)
Lemma get_result_no_results_witness :
  get_result bench "default" w_empty =
    (inr {| task_id := "default";
            is_resolved := false;
            log := [("message", PyStr "")];
            metrics := [("accuracy", PyFloat "0.0")];
            other := [("error", PyStr "No results found")] |}, w_empty).
Proof.
  apply (@get_result_no_results cpython bench "default" w_empty ["notes.txt"]).
  - reflexivity.
  - intros f [<- | []] Hends. apply endswith_spec in Hends. discriminate Hends.
Defined.

(** C6 with the log ["hello"], and with no log. *)
Lemma get_result_log_witness :
  (exists text,
      fs_read (files w_good) (log_path bench) = inr text /\
      log good_result = [("content", PyStr text)]) /\
  log fifteen_result = [("content", PyStr "")] /\
  (exists r, get_result bench "default" w_good = (inr r, w_good) /\
             is_resolved r = true /\
             log r = [("content", PyStr "hello")]) /\
  (exists r, get_result bench "default" w_nolog = (inr r, w_nolog) /\
             is_resolved r = true /\
             log r = [("content", PyStr "")]).
Proof.
  split; [| split; [| split]].
  - apply (proj1 (@get_result_log cpython bench "default" w_good)
             good_result w_good); reflexivity.
  - apply (proj1 (@get_result_log cpython bench "default" w_nolog)
             fifteen_result w_nolog); reflexivity.
  - apply (proj1 (proj2 (@get_result_log cpython bench "default" w_good)
                    result_path good_top good_metrics
                    [PyInt 1; PyInt 2; PyInt 3]%Z
                    selected_good
                    (conj eq_refl (ex_intro _ good_text (conj eq_refl eq_refl)))
                    eq_refl number_fields_good eq_refl) "hello");
      reflexivity.
  - apply (proj2 (proj2 (@get_result_log cpython bench "default" w_nolog)
                    result_path fifteen_top fifteen_metrics fifteen_results
                    selected_nolog
                    (conj eq_refl (ex_intro _ fifteen_text (conj eq_refl eq_refl)))
                    eq_refl number_fields_fifteen eq_refl)).
    reflexivity.
Defined.

(** C7 at the example with a log, called again while another handle is
    open. *)
Lemma get_result_idempotent_witness :
  get_result bench "default" (snd (get_result bench "default" w_good))
    = get_result bench "default" w_good /\
  fst (get_result bench "default" (World (files w_good) ["/run/other"]))
    = fst (get_result bench "default" w_good).
Proof.
  split.
  - apply (@get_result_idempotent cpython bench "default" w_good).
  - apply (proj2 (@get_result_idempotent cpython bench "default" w_good)).
    reflexivity.
Defined.

(** C10 at a result file whose ["metrics"] has an eighth key. *)
Lemma get_result_metric_keys_witness :
  field fifteen_metrics "extra" = Some (PyInt 7) /\
  keys (metrics fifteen_result) = metric_names.
Proof.
  split; [reflexivity |].
  apply (@get_result_metric_keys cpython bench "default" w_nolog
           fifteen_result w_nolog); reflexivity.
Defined.

(** * Further properties of [get_result] *)

Section Steps.
Context {rt : Runtime}.

Lemma bind_raise {A B} (m : M A) (k : A -> M B) w e w1 :
  m w = (inl e, w1) -> bind m k w = (inl e, w1).
Proof. unfold bind. intros ->. reflexivity. Qed.

Lemma bind_fst_agree {A B} (m : M A) (k : A -> M B) w1 w2 :
  read_only m ->
  fst (m w1) = fst (m w2) ->
  (forall a, fst (m w2) = inr a -> fst (k a w1) = fst (k a w2)) ->
  fst (bind m k w1) = fst (bind m k w2).
Proof.
  intros Hr Hm Hk. unfold bind.
  rewrite (read_only_eq m w1 Hr), (read_only_eq m w2 Hr), Hm.
  destruct (fst (m w2)) as [e | a]; [reflexivity |].
  apply Hk. reflexivity.
Qed.

Lemma world_free_bind {A B} (m : M A) (k : A -> M B) :
  read_only m -> world_free m -> (forall a, world_free (k a)) ->
  world_free (bind m k).
Proof.
  intros Hr Hm Hk w1 w2. apply bind_fst_agree; [exact Hr | apply Hm |].
  intros a _. apply Hk.
Qed.

Lemma world_free_getitem v key : world_free (getitem v key).
Proof.
  intros w1 w2. unfold getitem.
  destruct v; try reflexivity. destruct (dict_get key items); reflexivity.
Qed.

Lemma world_free_slice_to n v : world_free (slice_to n v).
Proof. intros w1 w2. destruct v; reflexivity. Qed.

Lemma parse_results_build self t path :
  parse_results self t path =
    (results <- with_open path json_load ;;
     present <- os_path_exists (log_path self) ;;
     log_content <- (if present then with_open (log_path self) f_read else ret "") ;;
     build_result t log_content results).
Proof. reflexivity. Qed.

Lemma read_only_build_result t lc top : read_only (build_result t lc top).
Proof.
  unfold build_result.
  repeat first
    [ apply read_only_ret
    | apply read_only_new_result
    | apply read_only_getitem
    | apply read_only_slice_to
    | apply read_only_bind; [| intros ?] ].
Qed.

Lemma world_free_build_result t lc top : world_free (build_result t lc top).
Proof.
  unfold build_result.
  do 10 (apply world_free_bind;
           [apply read_only_getitem | apply world_free_getitem | intros ?]).
  apply world_free_bind;
    [apply read_only_slice_to | apply world_free_slice_to | intros ?].
  intros w1 w2. unfold new_result. simpl.
  destruct (metrics_error _); reflexivity.
Qed.

(** The [try] body once the result file has loaded and the log has been
    taken. *)
Lemma parse_results_loaded self t path w top lc :
  loads w path top -> log_text self w lc ->
  parse_results self t path w = build_result t lc top w.
Proof.
  intros Hload Hlog. rewrite parse_results_build.
  rewrite (bind_step _ _ _ _ _ (load_result_loads _ _ _ Hload)).
  unfold bind at 1. unfold os_path_exists.
  rewrite (bind_step _ _ _ _ _ (load_log_text _ _ _ Hlog)).
  reflexivity.
Qed.



(** What [get_result] returns when the [try] body raises. *)
Lemma get_result_raised self t w path e w' :
  selected self w path ->
  parse_results self t path w = (inl e, w') ->
  get_result self t w =
    (inr (failure t ("Error parsing results: " ++ exn_str e)), w).
Proof.
  intros Hsel Hp. rewrite (get_result_selected _ _ _ _ Hsel), Hp. reflexivity.
Qed.

Lemma get_result_returned self t w path r w' :
  selected self w path ->
  parse_results self t path w = (inr r, w') ->
  get_result self t w = (inr r, w).
Proof.
  intros Hsel Hp. rewrite (get_result_selected _ _ _ _ Hsel), Hp. reflexivity.
Qed.

Lemma result_files_first_match entries first :
  first_match entries first ->
  exists rest, result_files entries = first :: rest.
Proof.
  intros (skipped & rest & -> & Hskip & Hfirst). unfold result_files.
  induction skipped as [| f skipped IH]; simpl.
  - rewrite Hfirst. eauto.
  - rewrite (Hskip f) by (left; reflexivity).
    apply IH. intros g Hg. apply Hskip. right. exact Hg.
Qed.

Lemma substring_length_le n s : String.length (substring 0 n s) <= n.
Proof.
  revert n. induction s as [| c s IH]; intros [| n]; simpl; try lia.
  specialize (IH n). lia.
Qed.
End Steps.

(** X1.  The only exception [get_result] lets out is the one [os.listdir]
    raised on the results directory. *)
Theorem get_result_only_listdir_raises `{Runtime} self t w e w' :
  get_result self t w = (inl e, w') ->
  fs_listdir (files w) (results_dir self) = inl e /\ w' = w.
Proof.
  intros E.
  destruct (fs_listdir (files w) (results_dir self)) as [e0 | entries] eqn:Hl.
  - unfold get_result, bind, os_listdir in E. rewrite Hl in E.
    inversion E. auto.
  - rewrite (get_result_listed _ _ _ _ Hl) in E.
    destruct (result_files entries); [discriminate |].
    destruct (parse_results _ _ _ _) as [[e1 | r] w1]; discriminate.
Qed.

(** X2.  Whatever path [get_result] takes, returning or raising, the
    handles it opened are closed when it is done: the table of open handles
    is what it was before the call. *)
Theorem get_result_closes_handles `{Runtime} self t w :
  handles (snd (get_result self t w)) = handles w.
Proof. rewrite (read_only_get_result self t w). reflexivity. Qed.

(** X3.  Only the first name of the listing that ends with [_result.json]
    is used, and besides that file only [simpleqa.log] is looked at: two
    worlds whose listings have the same first match, and which agree on
    that file and on the log, give the same record. *)
Theorem get_result_first_match_only `{Runtime} self t w1 w2 entries1 entries2 first :
  fs_listdir (files w1) (results_dir self) = inr entries1 ->
  fs_listdir (files w2) (results_dir self) = inr entries2 ->
  first_match entries1 first ->
  first_match entries2 first ->
  same_file w1 w2 (os_path_join (results_dir self) first) ->
  fs_exists (files w1) (log_path self) = fs_exists (files w2) (log_path self) ->
  (fs_exists (files w2) (log_path self) = true ->
   same_file w1 w2 (log_path self)) ->
  fst (get_result self t w1) = fst (get_result self t w2).
Proof.
  intros Hl1 Hl2 Hf1 Hf2 [Hopen Hread] Hex Hlog.
  apply result_files_first_match in Hf1 as [rest1 Hf1].
  apply result_files_first_match in Hf2 as [rest2 Hf2].
  rewrite (get_result_listed _ _ _ _ Hl1), (get_result_listed _ _ _ _ Hl2).
  rewrite Hf1, Hf2.
  set (path := os_path_join (results_dir self) first) in *.
  assert (Hp : fst (parse_results self t path w1)
               = fst (parse_results self t path w2)).
  { rewrite parse_results_build.
    apply bind_fst_agree.
    - apply read_only_with_open. intros ?. apply read_only_json_load.
    - rewrite !load_result, Hopen, Hread.
      destruct (fs_open (files w2) path); [reflexivity |].
      destruct (fs_read (files w2) path); reflexivity.
    - intros top _. apply bind_fst_agree.
      + apply read_only_exists.
      + simpl. rewrite Hex. reflexivity.
      + intros present Hpresent. simpl in Hpresent. inversion Hpresent.
        subst present. apply bind_fst_agree.
        * apply read_only_log.
        * destruct (fs_exists (files w2) (log_path self)); [| reflexivity].
          destruct (Hlog eq_refl) as [Hlo Hlr].
          rewrite !with_open_read_only by apply read_only_f_read.
          rewrite Hlo. destruct (fs_open (files w2) (log_path self));
            [reflexivity |].
          unfold f_read. rewrite !is_open_head. simpl. exact Hlr.
        * intros lc _. apply world_free_build_result. }
  destruct (parse_results self t path w1) as [[e1 | r1] w1'];
    destruct (parse_results self t path w2) as [[e2 | r2] w2'];
    simpl in Hp; inversion Hp; reflexivity.
Qed.

Lemma copied_metrics_seven m a c i n tot cga f :
  field m "accuracy" = Some a ->
  field m "correct" = Some c ->
  field m "incorrect" = Some i ->
  field m "not_attempted" = Some n ->
  field m "total" = Some tot ->
  field m "correct_given_attempted" = Some cga ->
  field m "f_score" = Some f ->
  copied_metrics m =
    [ ("accuracy", a); ("correct", c); ("incorrect", i); ("not_attempted", n);
      ("total", tot); ("correct_given_attempted", cga); ("f_score", f) ].
Proof.
  intros Ha Hc Hi Hn Ht Hg Hf. unfold copied_metrics, metric_names.
  cbn [flat_map]. rewrite Ha, Hc, Hi, Hn, Ht, Hg, Hf. reflexivity.
Qed.

(** X4.  [get_result] returns a resolved record exactly when the selected
    file loads, the log is absent or readable, ["metrics"] holds the seven
    fields, ["results"] can be sliced, and the constructor of the Result
    Record accepts the seven values. *)
Theorem get_result_resolved_iff `{Runtime} self t w :
  (exists r, get_result self t w = (inr r, w) /\ is_resolved r = true) <->
  (exists path top m d lc,
      selected self w path /\
      loads w path top /\
      log_text self w lc /\
      field top "metrics" = Some m /\
      Forall (fun k => field m k <> None) metric_names /\
      field top "results" = Some d /\
      slice_value 10 d <> None /\
      metrics_error (copied_metrics m) = None).
Proof.
  split.
  - intros (r & E & Hres).
    apply get_result_inr_resolved in E as (path & Hsel & Hr); [| exact Hres].
    destruct Hr as [top lc m a c i n tot cga f d ft
                      Hload Hlog Hm Ha Hc Hi Hn Htot Hcga Hf Hd Hft Hacc].
    exists path, top, m, d, lc.
    do 4 (split; [assumption |]).
    split; [unfold metric_names; repeat constructor; congruence |].
    split; [assumption |]. split; [congruence |].
    rewrite (copied_metrics_seven m a c i n tot cga f); assumption.
  - intros (path & top & m & d & lc
            & Hsel & Hload & Hlog & Hm & Hall & Hd & Hs & Hacc).
    unfold metric_names in Hall.
    repeat match goal with
           | H : Forall _ (_ :: _) |- _ => inversion H; clear H; subst
           end.
    repeat match goal with
           | H : field m ?k <> None |- _ =>
               let x := fresh "x" in
               let Hx := fresh "Hx" in
               destruct (field m k) as [x |] eqn:Hx; [clear H | congruence]
           end.
    destruct (slice_value 10 d) as [ft |] eqn:Hft; [| congruence].
    erewrite copied_metrics_seven in Hacc by eassumption.
    eexists. split.
    + eapply get_result_returned; [exact Hsel |].
      apply parse_results_resolved. econstructor; eassumption.
    + reflexivity.
Qed.

(** X5.  Every record [get_result] returns carries the task identifier it
    was called with. *)
Theorem get_result_task_id `{Runtime} self t w r w' :
  get_result self t w = (inr r, w') -> task_id r = t.
Proof.
  intros E.
  destruct (fs_listdir (files w) (results_dir self)) as [e0 | entries] eqn:Hl.
  - unfold get_result, bind, os_listdir in E. rewrite Hl in E. discriminate.
  - rewrite (get_result_listed _ _ _ _ Hl) in E.
    destruct (result_files entries); [inversion E; reflexivity |].
    destruct (parse_results _ _ _ _) as [[e1 | r1] w1] eqn:Hp.
    + inversion E. reflexivity.
    + inversion E. subst. apply parse_results_inr in Hp as [Hr _].
      destruct Hr. reflexivity.
Qed.

(** X6.  An unresolved record always has the same shape: the empty log
    message, [accuracy] 0.0 as its only metric, and [error] as the only
    other entry, whose text is ["No results found"] or starts with
    ["Error parsing results: "]. *)
Theorem get_result_unresolved_shape `{Runtime} self t w r w' :
  get_result self t w = (inr r, w') ->
  is_resolved r = false ->
  log r = [("message", PyStr "")] /\
  metrics r = [("accuracy", PyFloat "0.0")] /\
  exists msg,
    other r = [("error", PyStr msg)] /\
    (msg = "No results found" \/
     exists e, msg = "Error parsing results: " ++ exn_str e).
Proof.
  intros E Hres.
  destruct (fs_listdir (files w) (results_dir self)) as [e0 | entries] eqn:Hl.
  - unfold get_result, bind, os_listdir in E. rewrite Hl in E. discriminate.
  - rewrite (get_result_listed _ _ _ _ Hl) in E.
    destruct (result_files entries).
    + inversion E. repeat split. eexists. split; [reflexivity |]. left. reflexivity.
    + destruct (parse_results _ _ _ _) as [[e1 | r1] w1] eqn:Hp.
      * inversion E. repeat split. eexists. split; [reflexivity |]. right. exists e1. reflexivity.
      * inversion E. subst. apply parse_results_inr in Hp as [Hr _].
        destruct Hr. discriminate.
Qed.

(** X7.  In a resolved record the text under [success] is
    ["Evaluated N examples"] with [N] the [str] of the record's own
    [total] metric. *)
Theorem get_result_success_text `{Runtime} self t w r w' :
  get_result self t w = (inr r, w') ->
  is_resolved r = true ->
  exists total,
    dict_get "total" (metrics r) = Some total /\
    dict_get "success" (other r)
      = Some (PyStr ("Evaluated " ++ py_str total ++ " examples")).
Proof.
  intros E Hres.
  apply get_result_inr_resolved in E as (path & _ & Hr); [| exact Hres].
  destruct Hr. eexists. split; reflexivity.
Qed.

(** X8.  The [detailed_results] of a resolved record are a list of at most
    10 elements or a string of at most 10 characters. *)
Theorem get_result_detailed_bound `{Runtime} self t w r w' :
  get_result self t w = (inr r, w') ->
  is_resolved r = true ->
  (exists l, dict_get "detailed_results" (other r) = Some (PyList l) /\
             length l <= 10) \/
  (exists s, dict_get "detailed_results" (other r) = Some (PyStr s) /\
             String.length s <= 10).
Proof.
  intros E Hres.
  apply get_result_inr_resolved in E as (path & _ & Hr); [| exact Hres].
  destruct Hr as [top lc m a c i n tot cga f d ft _ _ _ _ _ _ _ _ _ _ _ Hft].
  destruct d; unfold slice_value in Hft; try discriminate; inversion Hft; subst.
  - right. exists (substring 0 10 s). split; [reflexivity |].
    apply substring_length_le.
  - left. exists (firstn 10 items). split; [reflexivity |].
    apply firstn_le_length.
Qed.

Ltac all_present Hall :=
  repeat match goal with
         | H : Forall _ (_ :: _) |- _ => inversion H; clear H; subst
         end;
  repeat match goal with
         | H : ?lookup <> None |- _ =>
             let x := fresh "x" in
             let Hx := fresh "Hx" in
             destruct lookup as [x |] eqn:Hx; [clear H | congruence]
         end.

Ltac run_items :=
  repeat (erewrite bind_step by (apply getitem_field; simpl; eassumption)).



(** X11.  When the selected file cannot be opened, read or decoded, the
    error carries that exception, whatever the state of the log. *)
Theorem get_result_result_file_error `{Runtime} self t w path e :
  selected self w path ->
  fs_open (files w) path = Some e \/
  (fs_open (files w) path = None /\ fs_read (files w) path = inl e) \/
  (fs_open (files w) path = None /\
   exists text, fs_read (files w) path = inr text /\ json_loads text = inl e) ->
  get_result self t w =
    (inr (failure t ("Error parsing results: " ++ exn_str e)), w).
Proof.
  intros Hsel Hbad. apply (get_result_raised _ _ _ _ _ w Hsel).
  rewrite parse_results_build. apply bind_raise. rewrite load_result.
  destruct Hbad as [Ho | [[Ho Hr] | (Ho & text & Hr & Hd)]]; rewrite Ho.
  - reflexivity.
  - rewrite Hr. reflexivity.
  - rewrite Hr, Hd. reflexivity.
Qed.

(** X12.  When the result file loads and [simpleqa.log] exists but cannot
    be opened or read, the record is unresolved and the error carries the
    exception of the log, whatever the result file holds. *)
Theorem get_result_log_error `{Runtime} self t w path top e :
  selected self w path ->
  loads w path top ->
  fs_exists (files w) (log_path self) = true ->
  fs_open (files w) (log_path self) = Some e \/
  (fs_open (files w) (log_path self) = None /\
   fs_read (files w) (log_path self) = inl e) ->
  get_result self t w =
    (inr (failure t ("Error parsing results: " ++ exn_str e)), w).
Proof.
  intros Hsel Hload Hex Hbad. apply (get_result_raised _ _ _ _ _ w Hsel).
  rewrite parse_results_build.
  rewrite (bind_step _ _ _ _ _ (load_result_loads _ _ _ Hload)).
  unfold bind at 1. unfold os_path_exists. rewrite Hex.
  apply bind_raise.
  rewrite with_open_read_only by apply read_only_f_read.
  destruct Hbad as [Ho | [Ho Hr]]; rewrite Ho; [reflexivity |].
  unfold f_read. rewrite is_open_head. simpl. rewrite Hr. reflexivity.
Qed.




(** X16.  The two failures can be told apart by their text: the error is
    ["No results found"] exactly when no name of the listing ends with
    [_result.json]. *)
Theorem get_result_no_results_iff `{Runtime} self t w entries r w' :
  fs_listdir (files w) (results_dir self) = inr entries ->
  get_result self t w = (inr r, w') ->
  (other r = [("error", PyStr "No results found")] <-> result_files entries = []).
Proof.
  intros Hl E. rewrite (get_result_listed _ _ _ _ Hl) in E.
  destruct (result_files entries) as [| first rest].
  - inversion E. split; reflexivity.
  - split; [| discriminate]. intros Hother. exfalso.
    destruct (parse_results _ _ _ _) as [[e | r1] w1] eqn:Hp.
    + inversion E. subst r. simpl in Hother. discriminate Hother.
    + inversion E. subst r1. apply parse_results_inr in Hp as [Hr _].
      destruct Hr. discriminate Hother.
Qed.

Lemma build_result_log `{Runtime} t lc1 lc2 top w :
  match fst (build_result t lc1 top w), fst (build_result t lc2 top w) with
  | inl e1, inl e2 => e1 = e2
  | inr r1, inr r2 =>
      is_resolved r1 = true /\ is_resolved r2 = true /\
      metrics r1 = metrics r2 /\ other r1 = other r2 /\
      log r1 = [("content", PyStr lc1)] /\ log r2 = [("content", PyStr lc2)]
  | _, _ => False
  end.
Proof.
  unfold build_result, bind.
  repeat match goal with
         | |- context [getitem ?v ?k ?w0] =>
             destruct (getitem v k w0) as [[? | ?] ?]; simpl; [reflexivity |]
         end.
  match goal with
  | |- context [slice_to ?n ?v ?w0] =>
      destruct (slice_to n v w0) as [[? | ?] ?]; simpl; [reflexivity |]
  end.
  unfold new_result. simpl.
  destruct (metrics_error _); simpl; [reflexivity |].
  repeat split.
Qed.

(** X17.  The text of the log goes into the [log] of the record and
    nowhere else: two worlds where the same selected file loads to the
    same object, with different readable logs, give records that are both
    unresolved with the same error, or both resolved with the same
    [metrics] and [other] and each with its own log. *)
Theorem get_result_log_only_in_log `{Runtime} self t w1 w2 path top lc1 lc2 :
  selected self w1 path -> selected self w2 path ->
  loads w1 path top -> loads w2 path top ->
  log_text self w1 lc1 -> log_text self w2 lc2 ->
  exists r1 r2,
    get_result self t w1 = (inr r1, w1) /\
    get_result self t w2 = (inr r2, w2) /\
    is_resolved r1 = is_resolved r2 /\
    metrics r1 = metrics r2 /\
    other r1 = other r2 /\
    (is_resolved r1 = true ->
     log r1 = [("content", PyStr lc1)] /\ log r2 = [("content", PyStr lc2)]).
Proof.
  intros Hs1 Hs2 Hl1 Hl2 Hlog1 Hlog2.
  rewrite (get_result_selected _ _ _ _ Hs1), (get_result_selected _ _ _ _ Hs2).
  rewrite (parse_results_loaded _ _ _ _ _ _ Hl1 Hlog1).
  rewrite (parse_results_loaded _ _ _ _ _ _ Hl2 Hlog2).
  rewrite (world_free_build_result t lc2 top w2 w1).
  pose proof (build_result_log t lc1 lc2 top w1) as Hb.
  destruct (fst (build_result t lc1 top w1)) as [e1 | r1];
    destruct (fst (build_result t lc2 top w1)) as [e2 | r2];
    try contradiction.
  - subst e2. do 2 eexists. repeat split; discriminate.
  - destruct Hb as (Hr1 & Hr2 & Hm & Ho & Hg1 & Hg2).
    exists r1, r2. repeat split; try assumption. congruence.
Qed.

(** X18.  When the result file is complete and the constructor of the
    Result Record refuses the seven values with the exception [e], that
    exception is caught like the others: the record is unresolved and its
    error carries [e]. *)
Theorem get_result_refused_metrics `{Runtime} self t w path top m d lc e :
  selected self w path ->
  loads w path top ->
  log_text self w lc ->
  field top "metrics" = Some m ->
  Forall (fun k => field m k <> None) metric_names ->
  field top "results" = Some d ->
  slice_value 10 d <> None ->
  metrics_error (copied_metrics m) = Some e ->
  get_result self t w =
    (inr (failure t ("Error parsing results: " ++ exn_str e)), w).
Proof.
  intros Hsel Hload Hlog Hm Hall Hr Hs Hrefused.
  unfold metric_names in Hall. all_present Hall.
  destruct (slice_value 10 d) as [ft |] eqn:Hft; [| congruence].
  erewrite copied_metrics_seven in Hrefused by eassumption.
  apply (get_result_raised _ _ _ _ _ w Hsel).
  rewrite (parse_results_loaded _ _ _ _ _ _ Hload Hlog). unfold build_result.
  run_items. erewrite bind_step by (apply slice_to_value; eassumption).
  unfold new_result. simpl. rewrite Hrefused. reflexivity.
Qed.

(** * The further properties on the examples *)



Lemma loads_text text top :
  decode text = inr top -> loads (w_text text) result_path top.
Proof. intros Hd. split; [reflexivity |]. exists text. split; [reflexivity | exact Hd]. Qed.

(** X1 at the world without a results directory. *)
Lemma get_result_only_listdir_raises_witness :
  fs_listdir (files w_absent) (results_dir bench)
    = inl (FileNotFoundError "/run/results") /\ w_absent = w_absent.
Proof.
  apply (@get_result_only_listdir_raises cpython bench "default" w_absent
           (FileNotFoundError "/run/results") w_absent).
  reflexivity.
Defined.

(** X3: a second result file, a file that is no result and a second log
    change nothing. *)
Lemma get_result_first_match_only_witness :
  fst (get_result bench "default" w_many) = fst (get_result bench "default" w_good).
Proof.
  apply (@get_result_first_match_only cpython bench "default" w_many w_good
           ["readme.md"; "abc_result.json"; "zzz_result.json"]
           ["notes.txt"; "abc_result.json"] "abc_result.json").
  - reflexivity.
  - reflexivity.
  - exists ["readme.md"], ["zzz_result.json"]. repeat split.
    intros f [<- | []]. reflexivity.
  - exists ["notes.txt"], []. repeat split.
    intros f [<- | []]. reflexivity.
  - split; reflexivity.
  - reflexivity.
  - intros _. split; reflexivity.
Defined.

(** X5 at the example with a log. *)
Lemma get_result_task_id_witness : task_id good_result = "default".
Proof.
  apply (@get_result_task_id cpython bench "default" w_good good_result w_good).
  reflexivity.
Defined.

(** X6 at the directory without a result file. *)
Lemma get_result_unresolved_shape_witness :
  log (failure "default" "No results found") = [("message", PyStr "")] /\
  metrics (failure "default" "No results found") = [("accuracy", PyFloat "0.0")] /\
  exists msg,
    other (failure "default" "No results found") = [("error", PyStr msg)] /\
    (msg = "No results found" \/
     exists e, msg = "Error parsing results: " ++ exn_str e).
Proof.
  apply (@get_result_unresolved_shape cpython bench "default" w_empty
           (failure "default" "No results found") w_empty); reflexivity.
Defined.

(** X7 at the file with 15 results. *)
Lemma get_result_success_text_witness :
  exists total,
    dict_get "total" (metrics fifteen_result) = Some total /\
    dict_get "success" (other fifteen_result)
      = Some (PyStr ("Evaluated " ++ py_str total ++ " examples")).
Proof.
  apply (@get_result_success_text cpython bench "default" w_nolog
           fifteen_result w_nolog); reflexivity.
Defined.

(** X8 at the file with 15 results. *)
Lemma get_result_detailed_bound_witness :
  (exists l, dict_get "detailed_results" (other fifteen_result) = Some (PyList l) /\
             length l <= 10) \/
  (exists s, dict_get "detailed_results" (other fifteen_result) = Some (PyStr s) /\
             String.length s <= 10).
Proof.
  apply (@get_result_detailed_bound cpython bench "default" w_nolog
           fifteen_result w_nolog); reflexivity.
Defined.



(** X11 at the result file cut short. *)
Lemma get_result_result_file_error_witness :
  get_result bench "default" (w_text truncated_text) =
    (inr (failure "default" "Error parsing results: Expecting value"),
     w_text truncated_text).
Proof.
  apply (@get_result_result_file_error cpython bench "default"
           (w_text truncated_text) result_path (JSONDecodeError "Expecting value")).
  - exact (selected_text truncated_text).
  - right. right. split; [reflexivity |].
    exists truncated_text. split; reflexivity.
Defined.

(** X12 at the world where [simpleqa.log] is a directory. *)
Lemma get_result_log_error_witness :
  get_result bench "default" w_logdir =
    (inr (failure "default"
            "Error parsing results: [Errno 21] Is a directory: '/run/logs/simpleqa.log'"),
     w_logdir).
Proof.
  apply (@get_result_log_error cpython bench "default" w_logdir result_path
           good_top (IsADirectoryError "/run/logs/simpleqa.log")).
  - exact selected_logdir.
  - split; [reflexivity |]. exists good_text. split; reflexivity.
  - reflexivity.
  - left. reflexivity.
Defined.




(** X4 at the example with a log. *)
Lemma get_result_resolved_iff_witness :
  exists r, get_result bench "default" w_good = (inr r, w_good) /\
            is_resolved r = true.
Proof.
  apply (proj2 (@get_result_resolved_iff cpython bench "default" w_good)).
  exists result_path, good_top, good_metrics,
    (PyList [PyInt 1; PyInt 2; PyInt 3]), "hello".
  split; [exact selected_good |].
  split; [split; [reflexivity | exists good_text; split; reflexivity] |].
  split; [split; reflexivity |].
  split; [reflexivity |].
  split; [exact seven_fields_good |].
  split; [reflexivity |].
  split; [discriminate | reflexivity].
Defined.

(** X16 at the directory without a result file. *)
Lemma get_result_no_results_iff_witness :
  other (failure "default" "No results found")
    = [("error", PyStr "No results found")]
  <-> result_files ["notes.txt"] = [].
Proof.
  apply (@get_result_no_results_iff cpython bench "default" w_empty
           ["notes.txt"] (failure "default" "No results found") w_empty);
    reflexivity.
Defined.

(** X17: the same result file with the log ["hello"] and with no log. *)
Lemma get_result_log_only_in_log_witness :
  exists r1 r2,
    get_result bench "default" w_good = (inr r1, w_good) /\
    get_result bench "default" (w_text good_text) = (inr r2, w_text good_text) /\
    is_resolved r1 = is_resolved r2 /\
    metrics r1 = metrics r2 /\
    other r1 = other r2 /\
    (is_resolved r1 = true ->
     log r1 = [("content", PyStr "hello")] /\ log r2 = [("content", PyStr "")]).
Proof.
  apply (@get_result_log_only_in_log cpython bench "default" w_good
           (w_text good_text) result_path good_top "hello" "").
  - exact selected_good.
  - exact (selected_text good_text).
  - split; [reflexivity |]. exists good_text. split; reflexivity.
  - apply loads_text. reflexivity.
  - split; reflexivity.
  - reflexivity.
Defined.

(** X18 at the result file whose [accuracy] is [null]. *)
Lemma get_result_refused_metrics_witness :
  get_result bench "default" (w_text null_accuracy_text) =
    (inr (failure "default"
            "Error parsing results: validation error for BenchmarkResult"),
     w_text null_accuracy_text).
Proof.
  apply (@get_result_refused_metrics cpython bench "default"
           (w_text null_accuracy_text) result_path null_accuracy_top
           null_accuracy_metrics (PyList [PyInt 1]) ""
           (Exn "ValidationError" "validation error for BenchmarkResult")).
  - exact (selected_text null_accuracy_text).
  - apply loads_text. reflexivity.
  - reflexivity.
  - reflexivity.
  - repeat constructor; discriminate.
  - reflexivity.
  - discriminate.
  - reflexivity.
Defined.
